(** * DKA calculator API: the audit-record lifecycle of [index.js]

    A shallow embedding of the two request handlers of [src/index.js]
    ([POST /calculate] and [POST /update]) and of [rehashPatientHash],
    together with the part of the JavaScript runtime they rely on:
    primitive values and their coercions, UTF-16 strings, the UTF-8
    encoder applied by [hash.update], and SHA-256 itself.

    A handler is a program over the collaborators it awaits
    ([calculateVariables], [getImdDecile], [generateAuditID],
    [insertCalculateData], [updateCheck], [updateData]); a run of it, for
    an implementation of the collaborators, gives the response, the world
    afterwards and the calls that were made.  The properties of the
    handlers hold for every implementation; the audit record store of the
    specification is one of them, and carries the fixtures. *)

From Stdlib Require Import ZArith List String Ascii Bool Lia.
From Stdlib Require Import Floats.SpecFloat.
From stdpp Require Import gmap strings list fin_maps finite.

Local Open Scope Z_scope.

(** ** JavaScript strings

    A JavaScript string is a sequence of UTF-16 code units; every code unit
    is a number below [2^16]. Equality of strings ([==] and [!=] between two
    strings) is equality of these sequences. *)

Abbreviation jsstring := (list Z).

Definition code_unit (c : Z) : Prop := 0 <= c < 65536.

(** A string all of whose characters are ASCII, such as a hexadecimal
    digest. *)
Definition ascii_string (s : jsstring) : Prop := Forall (fun c => 0 <= c < 128) s.

(** A string literal of the source whose characters are all ASCII. *)
Definition lit (s : string) : jsstring :=
  map (fun a => Z.of_N (N_of_ascii a)) (list_ascii_of_string s).

(** ** UTF-8 encoding of a JavaScript string

    [hash.update(data)] turns a string into bytes with the [utf8] encoding:
    a high surrogate followed by a low surrogate is one code point of four
    bytes, and a surrogate that is not part of such a pair is written as
    U+FFFD (the bytes [EF BF BD]). *)

Module Utf8.

Definition is_high_surrogate (c : Z) : bool := (0xD800 <=? c) && (c <=? 0xDBFF).
Definition is_low_surrogate (c : Z) : bool := (0xDC00 <=? c) && (c <=? 0xDFFF).

Definition continuation (x : Z) : Z := Z.lor 0x80 (Z.land x 0x3F).

Definition encode_code_point (cp : Z) : list Z :=
  if cp <? 0x80 then [cp]
  else if cp <? 0x800 then
    [Z.lor 0xC0 (Z.shiftr cp 6); continuation cp]
  else if cp <? 0x10000 then
    [Z.lor 0xE0 (Z.shiftr cp 12); continuation (Z.shiftr cp 6); continuation cp]
  else
    [Z.lor 0xF0 (Z.shiftr cp 18); continuation (Z.shiftr cp 12);
     continuation (Z.shiftr cp 6); continuation cp].

Definition replacement : list Z := [0xEF; 0xBF; 0xBD].

Definition pair_code_point (hi lo : Z) : Z :=
  0x10000 + Z.shiftl (hi - 0xD800) 10 + (lo - 0xDC00).

Fixpoint encode (s : jsstring) : list Z :=
  match s with
  | [] => []
  | c :: rest =>
      if is_high_surrogate c then
        match rest with
        | d :: rest' =>
            if is_low_surrogate d
            then encode_code_point (pair_code_point c d) ++ encode rest'
            else replacement ++ encode rest
        | [] => replacement
        end
      else if is_low_surrogate c then replacement ++ encode rest
      else encode_code_point c ++ encode rest
  end.

End Utf8.

(** ** SHA-256 (FIPS 180-4) on 32-bit words held in [Z] *)

Module SHA256.

Definition w32 (x : Z) : Z := x mod 2 ^ 32.
Definition rotr (n x : Z) : Z :=
  Z.lor (Z.shiftr x n) (w32 (Z.shiftl x (32 - n))).
Definition shr (n x : Z) : Z := Z.shiftr x n.
Definition not32 (x : Z) : Z := Z.lxor x 0xFFFFFFFF.

Definition Ch (x y z : Z) : Z := Z.lxor (Z.land x y) (Z.land (not32 x) z).
Definition Maj (x y z : Z) : Z :=
  Z.lxor (Z.lxor (Z.land x y) (Z.land x z)) (Z.land y z).
Definition Sum0 (x : Z) : Z := Z.lxor (Z.lxor (rotr 2 x) (rotr 13 x)) (rotr 22 x).
Definition Sum1 (x : Z) : Z := Z.lxor (Z.lxor (rotr 6 x) (rotr 11 x)) (rotr 25 x).
Definition sig0 (x : Z) : Z := Z.lxor (Z.lxor (rotr 7 x) (rotr 18 x)) (shr 3 x).
Definition sig1 (x : Z) : Z := Z.lxor (Z.lxor (rotr 17 x) (rotr 19 x)) (shr 10 x).

Definition K : list Z :=
  [0x428A2F98; 0x71374491; 0xB5C0FBCF; 0xE9B5DBA5;
   0x3956C25B; 0x59F111F1; 0x923F82A4; 0xAB1C5ED5;
   0xD807AA98; 0x12835B01; 0x243185BE; 0x550C7DC3;
   0x72BE5D74; 0x80DEB1FE; 0x9BDC06A7; 0xC19BF174;
   0xE49B69C1; 0xEFBE4786; 0x0FC19DC6; 0x240CA1CC;
   0x2DE92C6F; 0x4A7484AA; 0x5CB0A9DC; 0x76F988DA;
   0x983E5152; 0xA831C66D; 0xB00327C8; 0xBF597FC7;
   0xC6E00BF3; 0xD5A79147; 0x06CA6351; 0x14292967;
   0x27B70A85; 0x2E1B2138; 0x4D2C6DFC; 0x53380D13;
   0x650A7354; 0x766A0ABB; 0x81C2C92E; 0x92722C85;
   0xA2BFE8A1; 0xA81A664B; 0xC24B8B70; 0xC76C51A3;
   0xD192E819; 0xD6990624; 0xF40E3585; 0x106AA070;
   0x19A4C116; 0x1E376C08; 0x2748774C; 0x34B0BCB5;
   0x391C0CB3; 0x4ED8AA4A; 0x5B9CCA4F; 0x682E6FF3;
   0x748F82EE; 0x78A5636F; 0x84C87814; 0x8CC70208;
   0x90BEFFFA; 0xA4506CEB; 0xBEF9A3F7; 0xC67178F2].

(** The eight working variables, also the chaining value. *)
Record regs : Type := Regs { ra : Z; rb : Z; rc : Z; rd : Z; re : Z; rf : Z; rg : Z; rh : Z }.

Definition init : regs :=
  Regs 0x6A09E667 0xBB67AE85 0x3C6EF372 0xA54FF53A
       0x510E527F 0x9B05688C 0x1F83D9AB 0x5BE0CD19.

Definition be64 (n : Z) : list Z :=
  map (fun i => Z.land (Z.shiftr n (8 * i)) 0xFF) [7; 6; 5; 4; 3; 2; 1; 0].

(** Padding: a [1] bit, zero bits up to 56 modulo 64 bytes, then the
    length of the message in bits as a 64-bit big-endian number. *)
Definition pad (msg : list Z) : list Z :=
  let len := Z.of_nat (length msg) in
  msg ++ [0x80] ++ repeat 0 (Z.to_nat ((55 - len) mod 64)) ++ be64 (8 * len).

Fixpoint words (bytes : list Z) : list Z :=
  match bytes with
  | b0 :: b1 :: b2 :: b3 :: rest =>
      Z.lor (Z.shiftl b0 24) (Z.lor (Z.shiftl b1 16) (Z.lor (Z.shiftl b2 8) b3))
      :: words rest
  | _ => []
  end.

Fixpoint blocks (fuel : nat) (ws : list Z) : list (list Z) :=
  match fuel, ws with
  | S fuel', _ :: _ => take 16 ws :: blocks fuel' (drop 16 ws)
  | _, _ => []
  end.

(** The message schedule: [schedule n w] appends [n] words to [w]. *)
Fixpoint schedule (n : nat) (w : list Z) : list Z :=
  match n with
  | O => w
  | S n' =>
      let back i := nth (length w - i) w 0 in
      schedule n' (w ++ [w32 (sig1 (back 2%nat) + back 7%nat
                              + sig0 (back 15%nat) + back 16%nat)])
  end.

Definition round (s : regs) (kw : Z * Z) : regs :=
  let t1 := rh s + Sum1 (re s) + Ch (re s) (rf s) (rg s) + fst kw + snd kw in
  let t2 := Sum0 (ra s) + Maj (ra s) (rb s) (rc s) in
  Regs (w32 (t1 + t2)) (ra s) (rb s) (rc s) (w32 (rd s + t1)) (re s) (rf s) (rg s).

Definition add_regs (x y : regs) : regs :=
  Regs (w32 (ra x + ra y)) (w32 (rb x + rb y)) (w32 (rc x + rc y)) (w32 (rd x + rd y))
       (w32 (re x + re y)) (w32 (rf x + rf y)) (w32 (rg x + rg y)) (w32 (rh x + rh y)).

Definition compress (h : regs) (block : list Z) : regs :=
  add_regs h (fold_left round (combine K (schedule 48 block)) h).

Definition digest_words (h : regs) : list Z :=
  [ra h; rb h; rc h; rd h; re h; rf h; rg h; rh h].

(** The digest of a message of bytes, as the final chaining value. *)
Definition hash (msg : list Z) : regs :=
  let ws := words (pad msg) in
  fold_left compress (blocks (length ws) ws) init.

(** A chaining value read as one number, the first word least significant. *)
Definition number_of_words (ws : list Z) : Z :=
  fold_right (fun w acc => w + 2 ^ 32 * acc) 0 ws.

(** A chaining value all of whose words are 32-bit words. *)
Definition in_range (r : regs) : Prop :=
  Forall (fun w => 0 <= w < 2 ^ 32) (digest_words r).

End SHA256.

(** ** Hexadecimal rendering, as [digest("hex")] does it *)

Module Hex.

Definition digit (d : Z) : Z :=
  if d <? 10 then 48 + d else 87 + d.

Definition byte (b : Z) : jsstring :=
  [digit (Z.land (Z.shiftr b 4) 0xF); digit (Z.land b 0xF)].

Definition word (w : Z) : jsstring :=
  byte (Z.land (Z.shiftr w 24) 0xFF) ++ byte (Z.land (Z.shiftr w 16) 0xFF)
  ++ byte (Z.land (Z.shiftr w 8) 0xFF) ++ byte (Z.land w 0xFF).

Definition is_digit (c : Z) : bool :=
  ((48 <=? c) && (c <=? 57)) || ((97 <=? c) && (c <=? 102)).

(** Reading hexadecimal digits back, most significant first. *)
Definition digit_value (c : Z) : Z :=
  if c <? 58 then c - 48 else c - 87.

Definition parse (s : jsstring) : Z :=
  fold_left (fun acc c => 16 * acc + digit_value c) s 0.

End Hex.

(** ** JavaScript primitive values

    The fields of a validated request body ([matchedData(req)]) are JSON
    primitives. A number is an IEEE 754 binary64 value. *)

Inductive value : Type :=
| VUndefined
| VNull
| VBool (b : bool)
| VNumber (x : spec_float)
| VString (s : jsstring).

(** [ToBoolean]: [undefined], [null], [false], [+0], [-0], [NaN] and the
    empty string are falsy; everything else is truthy. *)
Definition truthy (v : value) : bool :=
  match v with
  | VUndefined | VNull => false
  | VBool b => b
  | VNumber (S754_zero _) | VNumber S754_nan => false
  | VNumber _ => true
  | VString [] => false
  | VString (_ :: _) => true
  end.

(** [a || b] *)
Definition js_or (a b : value) : value := if truthy a then a else b.

(** An object with primitive properties, such as the request data: reading
    a property that is not there gives [undefined]. *)
Abbreviation object := (gmap string value).

Definition get (o : object) (k : string) : value := default VUndefined (o !! k).
Definition set (o : object) (k : string) (v : value) : object := <[k := v]> o.

(** [keys.json]: the configuration of the server; [index.js] reads its
    [salt]. *)
Record Keys : Type := { salt : jsstring }.

(** What a collaborator or a handler body does: it returns, or it throws
    an error whose [message] is kept. *)
Inductive Result (A : Type) : Type :=
| Ok (a : A)
| Throw (message : value).
Arguments Ok {A} a.
Arguments Throw {A} message.

(** The object [calculateVariables] returns: [index.js] reads its [errors]
    array and passes the whole object on. *)
Record Calculations : Type := { errors : list value; variables : object }.

(** The row [updateCheck] resolves to: its [patientHash] column holds what
    [/calculate] stored there, a digest or [null] ([None]). *)
Record CheckRow : Type := { row_patientHash : option jsstring }.

(** [stored != derived] between a nullable string and a string: [null] is
    loosely equal to [null] and [undefined] only, two strings are compared
    code unit by code unit. *)
Definition js_neq (stored : option jsstring) (derived : jsstring) : bool :=
  match stored with
  | None => true
  | Some s => negb (bool_decide (s = derived))
  end.

Inductive Body : Type :=
| BErrors (errs : list value)
| BJson (v : value)
| BResult (auditID : jsstring) (calculations : Calculations).

Record Response : Type := { status : Z; body : Body }.

(** [res.json(b)] answers with status 200, [res.status(n).json(b)] with [n]. *)
Definition res_json (b : Body) : Response := {| status := 200; body := b |}.
Definition res_status_json (n : Z) (b : Body) : Response := {| status := n; body := b |}.

(** ** Collaborators

    The modules [index.js] requires and awaits. A handler is a program that
    calls them in order; which calls were made, with which arguments, is
    part of what a run produces. *)

Inductive Collab : Type -> Type :=
| CalculateVariables (data : object) : Collab Calculations
| GetImdDecile (postcode : value) : Collab value
| GenerateAuditID : Collab jsstring
| InsertCalculateData (data : object) (imdDecile : value) (auditID : jsstring)
    (patientHash : option jsstring) (clientIP : value)
    (calculations : Calculations) : Collab unit
| UpdateCheck (auditID : value) : Collab (option CheckRow)
| UpdateData (data : object) : Collab unit.

Inductive Prog (A : Type) : Type :=
| Ret (a : A)
| Do (X : Type) (c : Collab X) (k : X -> Prog A).
Arguments Ret {A} a.
Arguments Do {A X} c k.

Fixpoint prog_bind {A B : Type} (f : A -> Prog B) (p : Prog A) : Prog B :=
  match p with
  | Ret a => f a
  | Do c k => Do c (fun x => prog_bind f (k x))
  end.

#[global] Instance prog_mret : MRet Prog := @Ret.
#[global] Instance prog_mbind : MBind Prog := @prog_bind.

Definition call {X : Type} (c : Collab X) : Prog X := Do c Ret.

(** One collaborator call that was made. *)
Definition Event : Type := { X : Type & Collab X }.
Definition event {X : Type} (c : Collab X) : Event := existT X c.

Definition is_insert (e : Event) : bool :=
  match projT2 e with InsertCalculateData _ _ _ _ _ _ => true | _ => false end.
Definition is_update_data (e : Event) : bool :=
  match projT2 e with UpdateData _ => true | _ => false end.

(** The data and the hash of a call of [insertCalculateData]. *)
Definition inserted (e : Event) : option (object * option jsstring) :=
  match projT2 e with
  | InsertCalculateData data _ _ patientHash _ _ => Some (data, patientHash)
  | _ => None
  end.

(** The collaborator a call went to, by the name [index.js] requires it
    under. *)
Definition call_name (e : Event) : string :=
  match projT2 e with
  | CalculateVariables _ => "calculateVariables"
  | GetImdDecile _ => "getImdDecile"
  | GenerateAuditID => "generateAuditID"
  | InsertCalculateData _ _ _ _ _ _ => "insertCalculateData"
  | UpdateCheck _ => "updateCheck"
  | UpdateData _ => "updateData"
  end.

(** The decile of a call of [insertCalculateData]. *)
Definition inserted_decile (e : Event) : option value :=
  match projT2 e with
  | InsertCalculateData _ imdDecile _ _ _ _ => Some imdDecile
  | _ => None
  end.

(** The collaborators [/calculate] goes through for a submission, in the
    order of the source: the postcode lookup is there only for a truthy
    postcode. *)
Definition calculate_order (data : object) : list string :=
  ["calculateVariables"]
  ++ (if truthy (get data "patientPostcode") then ["getImdDecile"] else [])
  ++ ["generateAuditID"; "insertCalculateData"].

(** The optional numeric fields of a submission. *)
Definition optional_numeric : list string := ["bicarbonate"; "glucose"; "ketones"]%string.

(** An implementation of the collaborators over a world [W] (the database
    and whatever else they touch).

    Modelled from the spec: the bodies of [calculateVariables],
    [getImdDecile], [generateAuditID], [insertCalculateData], [updateCheck]
    and [updateData] are not part of [index.js]; their types follow the
    interfaces of section 6: [calculate] is a pure function, [lookup] reads
    the store and gives a record or nothing, the others may change the
    world. Any of them may throw. *)
Record Impl (W : Type) : Type := {
  calculateVariables : object -> Result Calculations;
  getImdDecile : value -> W -> Result value * W;
  generateAuditID : W -> Result jsstring * W;
  insertCalculateData :
    object -> value -> jsstring -> option jsstring -> value -> Calculations ->
    W -> Result unit * W;
  updateCheck : value -> W -> Result (option CheckRow);
  updateData : object -> W -> Result unit * W
}.
Arguments calculateVariables {W} _ _.
Arguments getImdDecile {W} _ _ _.
Arguments generateAuditID {W} _ _.
Arguments insertCalculateData {W} _ _ _ _ _ _ _ _.
Arguments updateCheck {W} _ _ _.
Arguments updateData {W} _ _ _.

Definition perform {W X : Type} (impl : Impl W) (c : Collab X) (w : W) : Result X * W :=
  match c in Collab X return Result X * W with
  | CalculateVariables data => (calculateVariables impl data, w)
  | GetImdDecile postcode => getImdDecile impl postcode w
  | GenerateAuditID => generateAuditID impl w
  | InsertCalculateData data imd auditID patientHash clientIP calculations =>
      insertCalculateData impl data imd auditID patientHash clientIP calculations w
  | UpdateCheck auditID => (updateCheck impl auditID w, w)
  | UpdateData data => updateData impl data w
  end.

(** Running a program: the result, the world afterwards, and the calls made
    (in order). A call that throws ends the run. *)
Fixpoint run {W A : Type} (impl : Impl W) (p : Prog A) (w : W)
  : Result A * W * list Event :=
  match p with
  | Ret a => (Ok a, w, [])
  | Do c k =>
      match perform impl c w with
      | (Ok x, w') =>
          let '(r, w'', t) := run impl (k x) w' in (r, w'', event c :: t)
      | (Throw m, w') => (Throw m, w', [event c])
      end
  end.

(** [try { ... } catch (error) { res.status(500).json(error.message) }];
    the [console.error] of the handler is not modelled. *)
Definition handle {W : Type} (impl : Impl W) (p : Prog Response) (w : W)
  : Response * W * list Event :=
  match run impl p w with
  | (Ok r, w', t) => (r, w', t)
  | (Throw m, w', t) => (res_status_json 500 (BJson m), w', t)
  end.

(** ** [crypto]: [createHash("sha256")], [update] and [digest("hex")] *)

Module crypto.

Record Hash : Type := { buffered : list Z }.

Definition createHash_sha256 : Hash := {| buffered := [] |}.

Definition update (h : Hash) (data : jsstring) : Hash :=
  {| buffered := buffered h ++ Utf8.encode data |}.

Definition digest_hex (h : Hash) : jsstring :=
  flat_map Hex.word (SHA256.digest_words (SHA256.hash (buffered h))).

End crypto.

(** ** [index.js] *)

Section Index.

(** [keys], read from [./private/keys.json], and the number formatting of
    the engine ([Number::toString]), which [index.js] reaches only when a
    number is put into a string. *)
Variable keys : Keys.
Variable Number_toString : spec_float -> jsstring.

Definition ToString (v : value) : jsstring :=
  match v with
  | VUndefined => lit "undefined"
  | VNull => lit "null"
  | VBool true => lit "true"
  | VBool false => lit "false"
  | VNumber x => Number_toString x
  | VString s => s
  end.

(** [v + s] where [s] is a string: the concatenation of [ToString v]
    and [s]. *)
Definition js_add_string (v : value) (s : jsstring) : jsstring := ToString v ++ s.

Definition rehashPatientHash (patientHash : value) : jsstring :=
  crypto.digest_hex
    (crypto.update crypto.createHash_sha256
       (js_add_string patientHash (salt keys))).

(** [app.post("/calculate", ...)], after [calculateRules] and
    [validateRequest]: [data] is [matchedData(req)], [clientIP] is
    [req.ip]. *)
Definition post_calculate (data : object) (clientIP : value) : Prog Response :=
  calculations ← call (CalculateVariables data);
  if negb (length (errors calculations) =? 0)%nat then
    mret (res_status_json 400 (BErrors (errors calculations)))
  else
    let data := set data "bicarbonate" (js_or (get data "bicarbonate") VNull) in
    let data := set data "glucose" (js_or (get data "glucose") VNull) in
    let data := set data "ketones" (js_or (get data "ketones") VNull) in
    let patientHash :=
      if truthy (get data "patientHash")
      then Some (rehashPatientHash (get data "patientHash"))
      else None in
    imdDecile ←
      (if truthy (get data "patientPostcode")
       then call (GetImdDecile (get data "patientPostcode"))
       else mret VNull);
    auditID ← call GenerateAuditID;
    _ ← call (InsertCalculateData data imdDecile auditID patientHash
                clientIP calculations);
    mret (res_json (BResult auditID calculations)).

Definition not_found_message (auditID : value) : jsstring :=
  lit "Audit ID not found in database: " ++ ToString auditID.

Definition mismatch_message (auditID : value) : jsstring :=
  lit "Patient NHS number or date of birth do not match for episode with audit ID: "
  ++ ToString auditID.

(** [app.post("/update", ...)], after [updateRules] and
    [validateRequest]. *)
Definition post_update (data : object) : Prog Response :=
  check ← call (UpdateCheck (get data "auditID"));
  match check with
  | None =>
      mret (res_status_json 404
              (BJson (VString (not_found_message (get data "auditID")))))
  | Some check =>
      let patientHash := rehashPatientHash (get data "patientHash") in
      if js_neq (row_patientHash check) patientHash then
        mret (res_status_json 401
                (BJson (VString (mismatch_message (get data "auditID")))))
      else
        _ ← call (UpdateData data);
        mret (res_json (BJson (VString (lit "Audit data update complete"))))
  end.

(** The data [/calculate] hands to [insertCalculateData], after the three
    assignments to [data], and the hash it hands over with it. *)
Definition normalised (data : object) : object :=
  let data := set data "bicarbonate" (js_or (get data "bicarbonate") VNull) in
  let data := set data "glucose" (js_or (get data "glucose") VNull) in
  let data := set data "ketones" (js_or (get data "ketones") VNull) in
  data.

Definition stored_hash (data : object) : option jsstring :=
  if truthy (get data "patientHash")
  then Some (rehashPatientHash (get data "patientHash"))
  else None.

(** What a run does once the calculation has passed: the decile is
    resolved if a postcode was given, an audit ID is generated, and the
    record is inserted; a collaborator that throws ends the run with 500. *)
Definition after_gate {W : Type} (impl : Impl W) (data : object) (ip : value)
    (c : Calculations) (w : W)
  : Response * W * list Event :=
  let '(imd, w1, t1) :=
    if truthy (get data "patientPostcode")
    then let '(r, w1) := getImdDecile impl (get data "patientPostcode") w in
         (r, w1, [event (GetImdDecile (get data "patientPostcode"))])
    else (Ok VNull, w, []) in
  match imd with
  | Throw m => (res_status_json 500 (BJson m), w1, event (CalculateVariables data) :: t1)
  | Ok imd =>
      match generateAuditID impl w1 with
      | (Throw m, w2) =>
          (res_status_json 500 (BJson m), w2,
           event (CalculateVariables data) :: t1 ++ [event GenerateAuditID])
      | (Ok id, w2) =>
          let ins := InsertCalculateData (normalised data) imd id
                       (stored_hash data) ip c in
          match perform impl ins w2 with
          | (Throw m, w3) =>
              (res_status_json 500 (BJson m), w3,
               event (CalculateVariables data) :: t1 ++ [event GenerateAuditID; event ins])
          | (Ok _, w3) =>
              (res_json (BResult id c), w3,
               event (CalculateVariables data) :: t1 ++ [event GenerateAuditID; event ins])
          end
      end
  end.

(** The three answers of [/update]. *)
Definition complete : Response :=
  res_json (BJson (VString (lit "Audit data update complete"))).

Definition unauthorized (auditID : value) : Response :=
  res_status_json 401 (BJson (VString (mismatch_message auditID))).

Definition not_found (auditID : value) : Response :=
  res_status_json 404 (BJson (VString (not_found_message auditID))).

(** The two routes of the audit-record lifecycle, and the server answering
    requests one after the other. *)
Inductive Request : Type :=
| PostCalculate (data : object) (clientIP : value)
| PostUpdate (data : object).

Definition route (r : Request) : Prog Response :=
  match r with
  | PostCalculate data clientIP => post_calculate data clientIP
  | PostUpdate data => post_update data
  end.

Definition serve {W : Type} (impl : Impl W) (r : Request) (w : W) : Response * W :=
  fst (handle impl (route r) w).

Fixpoint serve_all {W : Type} (impl : Impl W) (rs : list Request) (w : W)
  : list Response * W :=
  match rs with
  | [] => ([], w)
  | r :: rs' =>
      let '(resp, w') := serve impl r w in
      let '(resps, w'') := serve_all impl rs' w' in
      (resp :: resps, w'')
  end.

End Index.

(** ** The audit record store *)

Module Store.

(** Modelled from the spec: the audit record of section 3, which
    [insertCalculateData] writes and [updateData] amends; neither is part
    of [index.js]. *)
Record AuditRecord : Type := {
  auditID : jsstring;
  patientHash : option jsstring;
  calculationInputs : object;
  calculationResults : Calculations;
  preventableFactors : option object;
  clientIP : value;
  imdDecile : value
}.

(** Modelled from the spec: the world of the collaborators, which are not
    part of [index.js]: the records by identifier, the identifiers the
    generator will draw next, and the deprivation deciles by postcode. *)
Record t : Type := {
  records : gmap jsstring AuditRecord;
  identifiers : list jsstring;
  deciles : gmap jsstring value
}.

(** Modelled from the spec: [generateUniqueID] of section 6, absent from
    [index.js]: the next identifier drawn that no record has yet. *)
Fixpoint draw (recs : gmap jsstring AuditRecord) (ids : list jsstring)
  : option (jsstring * list jsstring) :=
  match ids with
  | [] => None
  | i :: ids' =>
      match recs !! i with
      | None => Some (i, ids')
      | Some _ => draw recs ids'
      end
  end.

Definition generateUniqueID (w : t) : Result jsstring * t :=
  match draw (records w) (identifiers w) with
  | Some (i, ids) =>
      (Ok i, {| records := records w; identifiers := ids; deciles := deciles w |})
  | None =>
      (Throw (VString (lit "no identifier left")),
       {| records := records w; identifiers := []; deciles := deciles w |})
  end.

(** Modelled from the spec: [resolveDeprivationIndex] of section 6, absent
    from [index.js]: the decile of a known postcode, [null] otherwise. *)
Definition resolveDeprivationIndex (postcode : value) (w : t) : Result value * t :=
  match postcode with
  | VString p => (Ok (default VNull (deciles w !! p)), w)
  | _ => (Ok VNull, w)
  end.

(** Modelled from the spec: [insert] of section 6, absent from [index.js]:
    one record is created under the identifier, its outcome fields
    empty. *)
Definition insert (data : object) (imd : value) (id : jsstring)
    (hash : option jsstring) (ip : value) (calculations : Calculations) (w : t)
  : Result unit * t :=
  (Ok tt,
   {| records :=
        <[id := {| auditID := id; patientHash := hash;
                   calculationInputs := data;
                   calculationResults := calculations;
                   preventableFactors := None;
                   clientIP := ip; imdDecile := imd |}]> (records w);
      identifiers := identifiers w;
      deciles := deciles w |}).

(** Modelled from the spec: [lookup] of section 6, absent from [index.js]:
    the stored hash of the record with this identifier, if there is
    one. *)
Definition lookup (id : value) (w : t) : Result (option CheckRow) :=
  match id with
  | VString i =>
      Ok ((fun r => {| row_patientHash := patientHash r |}) <$> records w !! i)
  | _ => Ok None
  end.

(** What a record is created with, apart from its outcome fields. *)
Definition creation_fields (r : AuditRecord)
  : jsstring * option jsstring * object * Calculations * value * value :=
  (auditID r, patientHash r, calculationInputs r, calculationResults r,
   clientIP r, imdDecile r).

(** The amendment fields of an update request: all but the identifier and
    the pre-hash. *)
Definition amendment (data : object) : object :=
  delete "auditID" (delete "patientHash" data).

Definition amend (fields : object) (r : AuditRecord) : AuditRecord :=
  {| auditID := auditID r; patientHash := patientHash r;
     calculationInputs := calculationInputs r;
     calculationResults := calculationResults r;
     preventableFactors := Some fields;
     clientIP := clientIP r; imdDecile := imdDecile r |}.

(** The stored hash of a record, if there is a record. *)
Definition hash_of (w : t) (id : jsstring) : option (option jsstring) :=
  patientHash <$> records w !! id.

(** Whether the record with this identifier has outcome fields. *)
Definition amended (w : t) (id : jsstring) : bool :=
  match records w !! id with
  | Some r => match preventableFactors r with Some _ => true | None => false end
  | None => false
  end.

(** Modelled from the spec: [update] of section 6, absent from [index.js]:
    the outcome fields of the record with the identifier of the request
    are replaced by the amendment fields. *)
Definition update (data : object) (w : t) : Result unit * t :=
  match get data "auditID" with
  | VString i =>
      (Ok tt,
       {| records := alter (amend (amendment data)) i (records w);
          identifiers := identifiers w;
          deciles := deciles w |})
  | _ => (Ok tt, w)
  end.

(** The collaborators over the store, for a given clinical calculator. *)
Definition impl (calculator : object -> Result Calculations) : Impl t := {|
  calculateVariables := calculator;
  getImdDecile := resolveDeprivationIndex;
  generateAuditID := generateUniqueID;
  insertCalculateData := insert;
  updateCheck := lookup;
  updateData := update
|}.

End Store.

(** ** Fixtures *)

Module Fixture.

Definition keys : Keys := {| salt := lit "pepper" |}.

(** A stand-in for [Number::toString]; no fixture puts a number into a
    string. *)
Definition number_toString (x : spec_float) : jsstring := lit "NaN".

(** A calculator that asks for a weight. *)
Definition calculator (data : object) : Result Calculations :=
  match data !! "weight" with
  | Some _ => Ok {| errors := []; variables := ∅ |}
  | None => Ok {| errors := [VString (lit "weight is required")]; variables := ∅ |}
  end.

Definition impl : Impl Store.t := Store.impl calculator.

Definition empty : Store.t :=
  {| Store.records := ∅;
     Store.identifiers := [lit "AUDIT-1"; lit "AUDIT-2"];
     Store.deciles := {[ lit "SW1A1AA" := VNumber (S754_finite false 5 0) ]} |}.

Definition submission : object :=
  {[ "weight" := VNumber (S754_finite false 70 0);
     "patientHash" := VString (lit "abc123");
     "patientPostcode" := VString (lit "SW1A1AA") ]}.

Definition amendment_request (id hash : jsstring) : object :=
  {[ "auditID" := VString id;
     "patientHash" := VString hash;
     "preventableFactors" := VString (lit "none") ]}.

(** The world after one accepted submission. *)
Definition created : Store.t :=
  snd (fst (handle impl (post_calculate keys number_toString submission VUndefined) empty)).

End Fixture.

(** ** Fixtures with a collaborator that fails *)

Module Outage.

(** The store with a postcode lookup that throws. *)
Definition geocoder : Impl Store.t := {|
  calculateVariables := Fixture.calculator;
  getImdDecile := fun _ w => (Throw (VString (lit "postcode lookup failed")), w);
  generateAuditID := Store.generateUniqueID;
  insertCalculateData := Store.insert;
  updateCheck := Store.lookup;
  updateData := Store.update
|}.

(** The store with an insertion that throws. *)
Definition database : Impl Store.t := {|
  calculateVariables := Fixture.calculator;
  getImdDecile := Store.resolveDeprivationIndex;
  generateAuditID := Store.generateUniqueID;
  insertCalculateData :=
    fun _ _ _ _ _ _ w => (Throw (VString (lit "connection lost")), w);
  updateCheck := Store.lookup;
  updateData := Store.update
|}.

End Outage.

(** * Properties *)

(** ** SHA-256 against the test vectors of FIPS 180-4 *)

Example sha256_abc :
  crypto.digest_hex (crypto.update crypto.createHash_sha256 (lit "abc"))
  = lit "ba7816bf8f01cfea414140de5dae2223b00361a396177a9cb410ff61f20015ad".
Proof. vm_compute. reflexivity. Qed.

Example sha256_empty :
  crypto.digest_hex crypto.createHash_sha256
  = lit "e3b0c44298fc1c149afbf4c8996fb92427ae41e4649b934ca495991b7852b855".
Proof. vm_compute. reflexivity. Qed.

Example sha256_two_blocks :
  crypto.digest_hex
    (crypto.update crypto.createHash_sha256
       (lit "abcdbcdecdefdefgefghfghighijhijkijkljklmklmnlmnomnopnopq"))
  = lit "248d6a61d20638b8e5c026930c3e6039a33ce45964ff2167f6ecedd419db06c1".
Proof. vm_compute. reflexivity. Qed.

(** Updating in pieces is updating with the concatenation, when the cut is
    not inside a surrogate pair; here, between ASCII characters. *)
Example sha256_in_pieces :
  crypto.digest_hex
    (crypto.update (crypto.update crypto.createHash_sha256 (lit "a")) (lit "bc"))
  = crypto.digest_hex (crypto.update crypto.createHash_sha256 (lit "abc")).
Proof. vm_compute. reflexivity. Qed.

(** ** The UTF-8 encoder on characters of one to four bytes *)

Example utf8_ascii : Utf8.encode (lit "abc") = [97; 98; 99].
Proof. reflexivity. Qed.

Example utf8_two_bytes : Utf8.encode [0xE9] = [0xC3; 0xA9].
Proof. reflexivity. Qed.

Example utf8_three_bytes : Utf8.encode [0x20AC] = [0xE2; 0x82; 0xAC].
Proof. reflexivity. Qed.

Example utf8_surrogate_pair : Utf8.encode [0xD83D; 0xDE00] = [0xF0; 0x9F; 0x98; 0x80].
Proof. reflexivity. Qed.

Example utf8_unpaired_surrogate : Utf8.encode [0xD800; 65] = [0xEF; 0xBF; 0xBD; 65].
Proof. reflexivity. Qed.

(** An ASCII string is written as its own code units. *)
Lemma encode_ascii_app p s :
  ascii_string p -> Utf8.encode (p ++ s) = p ++ Utf8.encode s.
Proof.
  induction 1 as [| c p Hc _ IH]; [reflexivity |].
  cbn [app Utf8.encode].
  assert (Utf8.is_high_surrogate c = false) as ->.
  { unfold Utf8.is_high_surrogate. apply andb_false_iff. left. apply Z.leb_gt. lia. }
  assert (Utf8.is_low_surrogate c = false) as ->.
  { unfold Utf8.is_low_surrogate. apply andb_false_iff. left. apply Z.leb_gt. lia. }
  unfold Utf8.encode_code_point.
  destruct (Z.ltb_spec c 0x80); [| lia]. cbn [app]. now rewrite IH.
Qed.

(** ** The hexadecimal rendering *)

Section HexFacts.

Lemma land_15 x : Z.land x 0xF = x mod 16.
Proof. change 0xF with (Z.ones 4). rewrite Z.land_ones by lia. reflexivity. Qed.

Lemma land_255 x : Z.land x 0xFF = x mod 256.
Proof. change 0xFF with (Z.ones 8). rewrite Z.land_ones by lia. reflexivity. Qed.

Lemma digit_is_digit d : 0 <= d < 16 -> Hex.is_digit (Hex.digit d) = true.
Proof.
  intros Hd. unfold Hex.is_digit, Hex.digit.
  destruct (Z.ltb_spec d 10).
  - apply orb_true_iff. left. apply andb_true_iff. split; apply Z.leb_le; lia.
  - apply orb_true_iff. right. apply andb_true_iff. split; apply Z.leb_le; lia.
Qed.

Lemma digit_value_digit d : 0 <= d < 16 -> Hex.digit_value (Hex.digit d) = d.
Proof.
  intros Hd. unfold Hex.digit_value, Hex.digit.
  destruct (Z.ltb_spec d 10).
  - destruct (Z.ltb_spec (48 + d) 58); lia.
  - destruct (Z.ltb_spec (87 + d) 58); lia.
Qed.

Lemma nibble_range x : 0 <= x mod 16 < 16.
Proof. apply Z.mod_pos_bound. lia. Qed.

Lemma byte_digits b : Forall (fun c => Hex.is_digit c = true) (Hex.byte b).
Proof.
  unfold Hex.byte. rewrite !land_15.
  repeat constructor; apply digit_is_digit, nibble_range.
Qed.

Lemma word_digits w : Forall (fun c => Hex.is_digit c = true) (Hex.word w).
Proof. unfold Hex.word. rewrite !Forall_app. repeat split; apply byte_digits. Qed.

Lemma word_length w : length (Hex.word w) = 8%nat.
Proof. reflexivity. Qed.

Lemma nibbles_of_byte b : 0 <= b < 256 -> 16 * ((b / 16) mod 16) + b mod 16 = b.
Proof. intros Hb. Z.div_mod_to_equations. lia. Qed.

Lemma bytes_of_word w :
  0 <= w < 4294967296 ->
  256 * (256 * (256 * ((w / 16777216) mod 256) + (w / 65536) mod 256)
         + (w / 256) mod 256) + w mod 256 = w.
Proof. intros Hw. Z.div_mod_to_equations. lia. Qed.

Lemma parse_word w : 0 <= w < 2 ^ 32 -> Hex.parse (Hex.word w) = w.
Proof.
  intros Hw. unfold Hex.parse, Hex.word, Hex.byte. simpl.
  rewrite !land_15, !land_255.
  rewrite !digit_value_digit by apply nibble_range.
  rewrite !Z.shiftr_div_pow2 by lia.
  change (2 ^ 4) with 16. change (2 ^ 8) with 256.
  change (2 ^ 16) with 65536. change (2 ^ 24) with 16777216.
  change (2 ^ 32) with 4294967296 in Hw.
  pose proof (bytes_of_word w Hw) as E.
  pose proof (nibbles_of_byte ((w / 16777216) mod 256) (Z.mod_pos_bound _ 256 eq_refl)).
  pose proof (nibbles_of_byte ((w / 65536) mod 256) (Z.mod_pos_bound _ 256 eq_refl)).
  pose proof (nibbles_of_byte ((w / 256) mod 256) (Z.mod_pos_bound _ 256 eq_refl)).
  pose proof (nibbles_of_byte (w mod 256) (Z.mod_pos_bound _ 256 eq_refl)).
  lia.
Qed.

Lemma word_inj v w :
  0 <= v < 2 ^ 32 -> 0 <= w < 2 ^ 32 -> Hex.word v = Hex.word w -> v = w.
Proof.
  intros Hv Hw E. rewrite <- (parse_word v Hv), <- (parse_word w Hw).
  now rewrite E.
Qed.

End HexFacts.

(** ** Every word of a digest is a 32-bit word *)

Section DigestRange.

Import SHA256.

(** The fuel of [blocks] is enough: no word of the padded message is left
    out of the blocks. *)
Lemma blocks_all n : forall ws, (length ws <= n)%nat -> concat (blocks n ws) = ws.
Proof.
  induction n as [| n IH]; intros [| x ws] L; try reflexivity.
  - cbn [length] in L. lia.
  - cbn [blocks concat]. rewrite IH.
    + apply take_drop.
    + rewrite length_drop. cbn [length] in *. lia.
Qed.

Lemma w32_range x : 0 <= w32 x < 2 ^ 32.
Proof. unfold w32. apply Z.mod_pos_bound. lia. Qed.

Lemma add_regs_range x y : in_range (add_regs x y).
Proof.
  unfold in_range, add_regs, digest_words. simpl.
  repeat (constructor; [apply w32_range |]). constructor.
Qed.

Lemma init_range : in_range init.
Proof.
  unfold in_range, init, digest_words. simpl.
  repeat (constructor; [lia |]). constructor.
Qed.

Lemma fold_compress_range bs : forall h, in_range h -> in_range (fold_left compress bs h).
Proof.
  induction bs as [|b bs IH]; intros h Hh; simpl.
  - exact Hh.
  - apply IH. apply add_regs_range.
Qed.

Lemma hash_range msg : in_range (hash msg).
Proof. unfold hash. apply fold_compress_range, init_range. Qed.

(** Two chaining values in range with the same hexadecimal rendering are
    the same. *)
Lemma hex_regs_inj x y :
  in_range x -> in_range y ->
  flat_map Hex.word (digest_words x) = flat_map Hex.word (digest_words y) ->
  x = y.
Proof.
  destruct x as [a1 b1 c1 d1 e1 f1 g1 h1], y as [a2 b2 c2 d2 e2 f2 g2 h2].
  unfold in_range, digest_words. cbn [ra rb rc rd re rf rg rh]. intros Hx Hy E.
  repeat match goal with
         | H : Forall _ (_ :: _) |- _ => apply Forall_cons_1 in H; destruct H
         end.
  cbn [flat_map] in E. rewrite !app_nil_r in E.
  repeat match type of E with
         | Hex.word ?v ++ _ = Hex.word ?w ++ _ =>
             let E1 := fresh "E" in
             apply app_inj_1 in E; [destruct E as [E1 E] | reflexivity];
             apply word_inj in E1; [subst v | assumption ..]
         end.
  apply word_inj in E; [subst | assumption ..]. reflexivity.
Qed.

Lemma number_of_words_range ws :
  Forall (fun w => 0 <= w < 2 ^ 32) ws ->
  0 <= number_of_words ws < 2 ^ (32 * Z.of_nat (length ws)).
Proof.
  induction 1 as [| w ws Hw _ IH]; cbn [number_of_words fold_right length].
  - change (2 ^ (32 * Z.of_nat 0)) with 1. lia.
  - fold (number_of_words ws).
    replace (32 * Z.of_nat (S (length ws))) with (32 + 32 * Z.of_nat (length ws)) by lia.
    rewrite Z.pow_add_r by lia. nia.
Qed.

Lemma number_of_words_inj xs : forall ys,
  length xs = length ys ->
  Forall (fun w => 0 <= w < 2 ^ 32) xs -> Forall (fun w => 0 <= w < 2 ^ 32) ys ->
  number_of_words xs = number_of_words ys -> xs = ys.
Proof.
  induction xs as [| x xs IH]; intros [| y ys] L Hx Hy E; try discriminate L.
  - reflexivity.
  - apply Forall_cons_1 in Hx as [Hx Hxs]. apply Forall_cons_1 in Hy as [Hy Hys].
    cbn [number_of_words fold_right] in E.
    fold (number_of_words xs) in E. fold (number_of_words ys) in E.
    assert (x = y /\ number_of_words xs = number_of_words ys) as [-> E'] by lia.
    f_equal. apply IH; auto.
Qed.

Lemma digest_words_inj x y : digest_words x = digest_words y -> x = y.
Proof. destruct x, y. unfold digest_words. cbn. now intros [= -> -> -> -> -> -> -> ->]. Qed.

End DigestRange.

(** ** The hasher *)

Lemma rehashPatientHash_eq keys nts v :
  rehashPatientHash keys nts v
  = flat_map Hex.word
      (SHA256.digest_words (SHA256.hash (Utf8.encode (ToString nts v ++ salt keys)))).
Proof. reflexivity. Qed.

(** C3: for a pre-hash string [p], [rehashPatientHash] is the hexadecimal
    rendering of the SHA-256 digest of the UTF-8 bytes of [p] followed by
    the configured salt: 64 characters, each one of [0-9a-f]; and it depends
    on nothing but [p] and the salt.  That the digest is SHA-256 and the
    bytes are UTF-8 is stated on the function itself: an ASCII pre-hash and
    an ASCII salt are hashed as their own characters; whenever the salted
    pre-hash is a message of FIPS 180-4 (["abc"], the empty message, the
    message of 448 bits) or the two hundred ["a"] of four blocks, the
    result is the digest of the standard; the pre-hash ["abc123"] under the
    salt ["pepper"] gives [sha256("abc123pepper")]; and pre-hashes with
    characters of two, three and four bytes, or with an unpaired surrogate,
    give the digests of their UTF-8 bytes. *)
Theorem rehashPatientHash_is_hex_sha256 (keys : Keys) (nts : spec_float -> jsstring)
    (p : jsstring) :
  rehashPatientHash keys nts (VString p)
  = flat_map Hex.word
      (SHA256.digest_words (SHA256.hash (Utf8.encode (p ++ salt keys))))
  /\ length (rehashPatientHash keys nts (VString p)) = 64%nat
  /\ Forall (fun c => Hex.is_digit c = true) (rehashPatientHash keys nts (VString p))
  /\ (forall keys' nts', salt keys' = salt keys ->
      rehashPatientHash keys' nts' (VString p) = rehashPatientHash keys nts (VString p))
  /\ (ascii_string p -> ascii_string (salt keys) ->
      Utf8.encode (p ++ salt keys) = p ++ salt keys)
  /\ (p ++ salt keys = lit "abc" ->
      rehashPatientHash keys nts (VString p)
      = lit "ba7816bf8f01cfea414140de5dae2223b00361a396177a9cb410ff61f20015ad")
  /\ (p ++ salt keys = [] ->
      rehashPatientHash keys nts (VString p)
      = lit "e3b0c44298fc1c149afbf4c8996fb92427ae41e4649b934ca495991b7852b855")
  /\ (p ++ salt keys = lit "abcdbcdecdefdefgefghfghighijhijkijkljklmklmnlmnomnopnopq" ->
      rehashPatientHash keys nts (VString p)
      = lit "248d6a61d20638b8e5c026930c3e6039a33ce45964ff2167f6ecedd419db06c1")
  /\ (p ++ salt keys = repeat 97 200 ->
      rehashPatientHash keys nts (VString p)
      = lit "c2a908d98f5df987ade41b5fce213067efbcc21ef2240212a41e54b5e7c28ae5")
  /\ (p = lit "abc123" -> salt keys = lit "pepper" ->
      rehashPatientHash keys nts (VString p)
      = lit "1f28ccbfc0af11265f1d45ce55c7165147d568991d45eb0a59e897256651586e")
  /\ (p = [0xE9; 0x20AC; 0xD83D; 0xDE00] -> salt keys = lit "pepper" ->
      rehashPatientHash keys nts (VString p)
      = lit "b58a3cdeea93e0d9e4e6e06c90ebdaefcea27256192588b682035b07944287c7")
  /\ (p = [0xD800; 65] -> salt keys = lit "pepper" ->
      rehashPatientHash keys nts (VString p)
      = lit "5d9b1f2f241bfdfdbce882ac150131b8058d556e6ce5c6991ae6402c259827b6").
Proof.
  rewrite !rehashPatientHash_eq. cbn [ToString].
  split; [reflexivity |]. split; [| split; [| split; [| split]]].
  - unfold SHA256.digest_words. cbn [flat_map].
    rewrite !length_app, !word_length. reflexivity.
  - unfold SHA256.digest_words. cbn [flat_map].
    rewrite !Forall_app. repeat split; try apply word_digits. constructor.
  - intros keys' nts' E. rewrite rehashPatientHash_eq. cbn [ToString].
    now rewrite E.
  - intros Ap As. rewrite encode_ascii_app by assumption.
    rewrite <- (app_nil_r (salt keys)) at 1.
    rewrite encode_ascii_app by assumption. cbn [Utf8.encode]. now rewrite app_nil_r.
  - repeat match goal with
           | |- _ /\ _ => split
           end;
      repeat (let E := fresh in intros E; rewrite E); vm_compute; reflexivity.
Qed.

(** Scenario A: the hash kept for the pre-hash ["abc123"] under the salt
    ["pepper"] is [sha256("abc123pepper")]. *)
Example rehashPatientHash_abc123 :
  rehashPatientHash Fixture.keys Fixture.number_toString (VString (lit "abc123"))
  = lit "1f28ccbfc0af11265f1d45ce55c7165147d568991d45eb0a59e897256651586e".
Proof. vm_compute. reflexivity. Qed.

(** There are more strings than digests: among the strings of zeros of
    length up to [2^256], two have the same hash, whatever the salt. *)
Lemma rehashPatientHash_collides_on_zeros keys nts :
  exists n1 n2 : nat,
    n1 <> n2
    /\ rehashPatientHash keys nts (VString (repeat 48 n1))
       = rehashPatientHash keys nts (VString (repeat 48 n2)).
Proof.
  pose (digest := fun i : nat =>
          SHA256.digest_words (SHA256.hash (Utf8.encode (repeat 48 i ++ salt keys)))).
  assert (forall i, 0 <= SHA256.number_of_words (digest i) < 2 ^ 256) as Hrange.
  { intros i. apply (number_of_words_range (digest i)), hash_range. }
  destruct (nat_pigeonhole
              (fun i => Z.to_nat (SHA256.number_of_words (digest i)))
              (S (Z.to_nat (2 ^ 256))) (Z.to_nat (2 ^ 256)))
    as (i1 & i2 & Hlt & Hf).
  - lia.
  - intros i _. specialize (Hrange i). lia.
  - exists i1, i2. split; [lia |].
    rewrite !rehashPatientHash_eq. cbn [ToString].
    fold (digest i1). fold (digest i2). f_equal.
    apply number_of_words_inj; try apply hash_range; [reflexivity |].
    pose proof (Hrange i1). pose proof (Hrange i2). lia.
Qed.

(** C9, as stated, fails.  Two strings that differ in an unpaired
    surrogate only are written as the same bytes, so they have the same
    hash under every salt; and under every salt two strings of zeros of
    different lengths have the same hash. *)
Lemma rehashPatientHash_not_injective :
  (exists p1 p2 : jsstring,
     p1 <> p2
     /\ Forall code_unit p1 /\ Forall code_unit p2
     /\ forall keys nts,
         rehashPatientHash keys nts (VString p1) = rehashPatientHash keys nts (VString p2))
  /\ (forall keys nts, exists p1 p2 : jsstring,
        p1 <> p2
        /\ Forall (fun c => c = 48) p1 /\ Forall (fun c => c = 48) p2
        /\ rehashPatientHash keys nts (VString p1) = rehashPatientHash keys nts (VString p2)).
Proof.
  split.
  - exists [0xD800; 65], [0xD801; 65]. split; [discriminate |].
    split; [repeat (constructor; [unfold code_unit; lia |]); constructor |].
    split; [repeat (constructor; [unfold code_unit; lia |]); constructor |].
    intros keys nts. rewrite !rehashPatientHash_eq. reflexivity.
  - intros keys nts.
    destruct (rehashPatientHash_collides_on_zeros keys nts) as (n1 & n2 & N & E).
    exists (repeat 48 n1), (repeat 48 n2). split.
    + intros R. apply N. apply (f_equal length) in R. now rewrite !repeat_length in R.
    + split; [| split; [| exact E]]; apply Forall_forall; intros c Hc;
        now apply list_elem_of_In, repeat_spec in Hc.
Qed.

(** C9, amended: two pre-hash strings have the same hash exactly when the
    SHA-256 digests of their salted UTF-8 bytes are the same; the
    hexadecimal rendering loses nothing. *)
Theorem rehashPatientHash_eq_iff_digest_eq (keys : Keys) (nts : spec_float -> jsstring)
    (p1 p2 : jsstring) :
  rehashPatientHash keys nts (VString p1) = rehashPatientHash keys nts (VString p2)
  <-> SHA256.hash (Utf8.encode (p1 ++ salt keys))
      = SHA256.hash (Utf8.encode (p2 ++ salt keys)).
Proof.
  rewrite !rehashPatientHash_eq. cbn [ToString]. split.
  - apply hex_regs_inj; apply hash_range.
  - intros E. now rewrite E.
Qed.

(** Fixed strings, as the tests of the hasher take them: ["abc123"] and
    ["wrong"] have different hashes under the salt ["pepper"]. *)
Example rehashPatientHash_abc123_wrong :
  bool_decide
    (rehashPatientHash Fixture.keys Fixture.number_toString (VString (lit "abc123"))
     = rehashPatientHash Fixture.keys Fixture.number_toString (VString (lit "wrong")))
  = false.
Proof. vm_compute. reflexivity. Qed.

(** ** Running a handler *)

(** Unfolds the run of a program up to its next collaborator call, and the
    call itself. *)
Ltac run_step :=
  try unfold handle;
  cbn [run mbind mret prog_mbind prog_mret prog_bind call perform fst snd].

(** ** The update handler *)

Section UpdateHandler.

Context {W : Type} (impl : Impl W).
Variable keys : Keys.
Variable nts : spec_float -> jsstring.

(** The three ways through the handler, by what [updateCheck] resolves to
    and by the comparison. *)
Lemma post_update_absent data w :
  updateCheck impl (get data "auditID") w = Ok None ->
  handle impl (post_update keys nts data) w
  = (not_found nts (get data "auditID"), w, [event (UpdateCheck (get data "auditID"))]).
Proof.
  intros E. unfold post_update. run_step. rewrite E. reflexivity.
Qed.

Lemma post_update_mismatch data w row :
  updateCheck impl (get data "auditID") w = Ok (Some row) ->
  js_neq (row_patientHash row) (rehashPatientHash keys nts (get data "patientHash")) = true ->
  handle impl (post_update keys nts data) w
  = (unauthorized nts (get data "auditID"), w, [event (UpdateCheck (get data "auditID"))]).
Proof.
  intros E N. unfold post_update. run_step. rewrite E. run_step. rewrite N. reflexivity.
Qed.

Lemma post_update_match data w row :
  updateCheck impl (get data "auditID") w = Ok (Some row) ->
  js_neq (row_patientHash row) (rehashPatientHash keys nts (get data "patientHash")) = false ->
  handle impl (post_update keys nts data) w
  = (match fst (updateData impl data w) with
     | Ok _ => complete
     | Throw m => res_status_json 500 (BJson m)
     end,
     snd (updateData impl data w),
     [event (UpdateCheck (get data "auditID")); event (UpdateData data)]).
Proof.
  intros E N. unfold post_update. run_step. rewrite E. run_step. rewrite N. run_step.
  destruct (updateData impl data w) as [[u|m] w']; reflexivity.
Qed.

Lemma js_neq_false stored derived :
  js_neq stored derived = false <-> stored = Some derived.
Proof.
  unfold js_neq. destruct stored as [s|].
  - rewrite negb_false_iff, bool_decide_eq_true. split; congruence.
  - split; discriminate.
Qed.

Lemma js_neq_true stored derived :
  js_neq stored derived = true <-> stored <> Some derived.
Proof.
  rewrite <- js_neq_false. destruct (js_neq stored derived); split; congruence.
Qed.

End UpdateHandler.

(** C5: when [updateCheck] finds no record for the audit ID of the request,
    the answer is 404 with the message that names the audit ID, the only
    call made is the lookup and the world is left as it was; neither the
    submitted pre-hash nor the salt has any part in the outcome, which is
    the same for every request with this audit ID. *)
Theorem update_unknown_audit_id {W : Type} (impl : Impl W) (keys : Keys)
    (nts : spec_float -> jsstring) (data : object) (w : W) :
  updateCheck impl (get data "auditID") w = Ok None ->
  handle impl (post_update keys nts data) w
  = (res_status_json 404
       (BJson (VString (lit "Audit ID not found in database: "
                        ++ ToString nts (get data "auditID")))),
     w, [event (UpdateCheck (get data "auditID"))])
  /\ (forall keys' data',
        get data' "auditID" = get data "auditID" ->
        handle impl (post_update keys' nts data') w
        = handle impl (post_update keys nts data) w).
Proof.
  intros E. split.
  - apply post_update_absent, E.
  - intros keys' data' Eid.
    rewrite (post_update_absent impl keys nts data w E).
    rewrite (post_update_absent impl keys' nts data' w) by (rewrite Eid; exact E).
    now rewrite Eid.
Qed.

(** C1: when [updateCheck] finds a record, [updateData] is called exactly
    when the stored hash is the hash derived from the submitted pre-hash,
    code unit by code unit; then the world is the one [updateData] leaves
    and the answer is the confirmation (or 500 if [updateData] throws).
    Otherwise the answer is 401 with the message that names the audit ID
    and nothing else of the request or the record, the only call made is
    the lookup and the world is left as it was. *)
Theorem update_applied_iff_hash_matches {W : Type} (impl : Impl W) (keys : Keys)
    (nts : spec_float -> jsstring) (data : object) (w : W) (row : CheckRow)
    (resp : Response) (w' : W) (trace : list Event) :
  updateCheck impl (get data "auditID") w = Ok (Some row) ->
  handle impl (post_update keys nts data) w = (resp, w', trace) ->
  (existsb is_update_data trace = true
   <-> row_patientHash row = Some (rehashPatientHash keys nts (get data "patientHash")))
  /\ (row_patientHash row = Some (rehashPatientHash keys nts (get data "patientHash")) ->
      trace = [event (UpdateCheck (get data "auditID")); event (UpdateData data)]
      /\ w' = snd (updateData impl data w)
      /\ resp = match fst (updateData impl data w) with
                | Ok _ => res_json (BJson (VString (lit "Audit data update complete")))
                | Throw m => res_status_json 500 (BJson m)
                end)
  /\ (row_patientHash row <> Some (rehashPatientHash keys nts (get data "patientHash")) ->
      trace = [event (UpdateCheck (get data "auditID"))]
      /\ w' = w
      /\ resp = res_status_json 401
                  (BJson (VString
                     (lit "Patient NHS number or date of birth do not match for episode with audit ID: "
                      ++ ToString nts (get data "auditID"))))).
Proof.
  intros E R.
  destruct (js_neq (row_patientHash row)
              (rehashPatientHash keys nts (get data "patientHash"))) eqn:N.
  - rewrite (post_update_mismatch impl keys nts data w row E N) in R.
    injection R as <- <- <-. apply js_neq_true in N.
    split; [split; [discriminate | intros; contradiction] |].
    split; [intros; contradiction |]. intros _. repeat split.
  - rewrite (post_update_match impl keys nts data w row E N) in R.
    injection R as <- <- <-. apply js_neq_false in N.
    split; [split; [intros _; exact N | reflexivity] |].
    split; [intros _; repeat split | intros; contradiction].
Qed.

(** ** The calculate handler *)

Section CalculateHandler.

Context {W : Type} (impl : Impl W).
Variable keys : Keys.
Variable nts : spec_float -> jsstring.

Lemma get_set_ne o k k' v : k <> k' -> get (set o k v) k' = get o k'.
Proof. intros Hk. unfold get, set. now rewrite lookup_insert_ne. Qed.

(** A property name that is none of the optional numeric fields. *)
Ltac not_optional :=
  unfold optional_numeric; rewrite !not_elem_of_cons;
  repeat split; try discriminate; apply not_elem_of_nil.

Lemma normalised_other data k : k ∉ optional_numeric -> normalised data !! k = data !! k.
Proof.
  unfold optional_numeric, normalised, set. cbv zeta. intros Hk.
  rewrite !not_elem_of_cons in Hk. destruct Hk as (H1 & H2 & H3 & _).
  now rewrite !lookup_insert_ne by congruence.
Qed.

Lemma normalised_field data k :
  k ∈ optional_numeric -> normalised data !! k = Some (js_or (get data k) VNull).
Proof.
  unfold optional_numeric, normalised. cbv zeta. intros Hk.
  repeat (apply elem_of_cons in Hk as [-> | Hk]);
    [| | | now apply elem_of_nil in Hk];
    rewrite ?get_set_ne by discriminate; unfold set.
  - rewrite !lookup_insert_ne by discriminate. apply lookup_insert_eq.
  - rewrite lookup_insert_ne by discriminate. apply lookup_insert_eq.
  - apply lookup_insert_eq.
Qed.

Lemma get_normalised_other data k : k ∉ optional_numeric -> get (normalised data) k = get data k.
Proof. intros Hk. unfold get. now rewrite normalised_other. Qed.

Lemma stored_hash_normalised data :
  stored_hash keys nts (normalised data) = stored_hash keys nts data.
Proof.
  unfold stored_hash. rewrite get_normalised_other; [reflexivity |].
  not_optional.
Qed.

Lemma postcode_normalised data :
  get (normalised data) "patientPostcode" = get data "patientPostcode".
Proof. apply get_normalised_other. not_optional. Qed.

(** The handler, with the data and the hash it hands over named. *)
Lemma post_calculate_eq data ip :
  post_calculate keys nts data ip
  = Do (CalculateVariables data) (fun calculations =>
      if negb (length (errors calculations) =? 0)%nat
      then Ret (res_status_json 400 (BErrors (errors calculations)))
      else
        prog_bind
          (fun imdDecile =>
             Do GenerateAuditID (fun auditID =>
               Do (InsertCalculateData (normalised data) imdDecile auditID
                     (stored_hash keys nts (normalised data)) ip calculations)
                  (fun _ => Ret (res_json (BResult auditID calculations)))))
          (if truthy (get (normalised data) "patientPostcode")
           then call (GetImdDecile (get (normalised data) "patientPostcode"))
           else Ret VNull)).
Proof. reflexivity. Qed.

Lemma post_calculate_throws data ip w m :
  calculateVariables impl data = Throw m ->
  handle impl (post_calculate keys nts data ip) w
  = (res_status_json 500 (BJson m), w, [event (CalculateVariables data)]).
Proof. intros E. rewrite post_calculate_eq. run_step. rewrite E. reflexivity. Qed.

Lemma post_calculate_rejected data ip w c :
  calculateVariables impl data = Ok c -> errors c <> [] ->
  handle impl (post_calculate keys nts data ip) w
  = (res_status_json 400 (BErrors (errors c)), w, [event (CalculateVariables data)]).
Proof.
  intros E N. rewrite post_calculate_eq. run_step. rewrite E.
  destruct (errors c) as [|e es] eqn:Ec; [contradiction |]. reflexivity.
Qed.

Lemma post_calculate_accepted data ip w c :
  calculateVariables impl data = Ok c -> errors c = [] ->
  handle impl (post_calculate keys nts data ip) w = after_gate keys nts impl data ip c w.
Proof.
  intros E N. rewrite post_calculate_eq. run_step. rewrite E, N.
  cbn [length Nat.eqb negb]. unfold after_gate.
  rewrite stored_hash_normalised, postcode_normalised.
  destruct (truthy (get data "patientPostcode")); run_step.
  - destruct (getImdDecile impl _ w) as [[imd | m] w1]; [| reflexivity]. run_step.
    destruct (generateAuditID impl w1) as [[id | m] w2]; [| reflexivity]. run_step.
    destruct (insertCalculateData impl _ _ _ _ _ _ w2) as [[u | m] w3]; reflexivity.
  - destruct (generateAuditID impl w) as [[id | m] w2]; [| reflexivity]. run_step.
    destruct (insertCalculateData impl _ _ _ _ _ _ w2) as [[u | m] w3]; reflexivity.
Qed.

(** Every call of [insertCalculateData] a run of [/calculate] makes comes
    after a calculation without errors, and passes the normalised data and
    the hash of the submitted pre-hash. *)
Lemma post_calculate_inserted data ip w resp w' trace e d h :
  handle impl (post_calculate keys nts data ip) w = (resp, w', trace) ->
  e ∈ trace -> inserted e = Some (d, h) ->
  d = normalised data /\ h = stored_hash keys nts data
  /\ exists c, calculateVariables impl data = Ok c /\ errors c = [].
Proof.
  intros R He Hi.
  destruct (calculateVariables impl data) as [c | m] eqn:Ec.
  - destruct (errors c) as [| x xs] eqn:Ee.
    + rewrite (post_calculate_accepted data ip w c Ec Ee) in R.
      unfold after_gate in R.
      destruct (truthy (get data "patientPostcode"));
        [destruct (getImdDecile impl _ w) as [[imd | m] w1] |];
        try destruct (generateAuditID impl _) as [[id | m] w2];
        try destruct (perform impl _ w2) as [[u | m] w3];
        injection R as <- <- <-; cbn [app] in He;
        repeat (apply elem_of_cons in He as [-> | He]);
        try (now apply elem_of_nil in He);
        try discriminate Hi;
        cbn in Hi; injection Hi as <- <-; eauto.
    + rewrite (post_calculate_rejected data ip w c Ec) in R by (rewrite Ee; discriminate).
      injection R as <- <- <-. apply list_elem_of_singleton in He as ->. discriminate Hi.
  - rewrite (post_calculate_throws data ip w m Ec) in R.
    injection R as <- <- <-. apply list_elem_of_singleton in He as ->. discriminate Hi.
Qed.

End CalculateHandler.

(** C4: when [calculateVariables] reports errors, the answer is 400 with
    these errors, the calculation is the only call made and the world is
    left as it was, so that every lookup answers as before the request;
    and in any run of the handler, the calculation is the first call, and
    [insertCalculateData] is called only after a calculation without
    errors. *)
Theorem calculation_errors_gate {W : Type} (impl : Impl W) (keys : Keys)
    (nts : spec_float -> jsstring) (data : object) (ip : value) (w : W)
    (resp : Response) (w' : W) (trace : list Event) :
  handle impl (post_calculate keys nts data ip) w = (resp, w', trace) ->
  (forall c, calculateVariables impl data = Ok c -> errors c <> [] ->
     resp = res_status_json 400 (BErrors (errors c))
     /\ w' = w
     /\ trace = [event (CalculateVariables data)]
     /\ (forall id, updateCheck impl id w' = updateCheck impl id w))
  /\ (exists t, trace = event (CalculateVariables data) :: t)
  /\ (existsb is_insert trace = true ->
      exists c, calculateVariables impl data = Ok c /\ errors c = []).
Proof.
  intros R. split; [| split].
  - intros c Ec Ne.
    rewrite (post_calculate_rejected impl keys nts data ip w c Ec Ne) in R.
    injection R as <- <- <-. repeat split.
  - destruct (calculateVariables impl data) as [c | m] eqn:Ec.
    + destruct (errors c) as [| x xs] eqn:Ee.
      * rewrite (post_calculate_accepted impl keys nts data ip w c Ec Ee) in R.
        unfold after_gate in R.
        destruct (truthy (get data "patientPostcode"));
          [destruct (getImdDecile impl _ w) as [[imd | m] w1] |];
          try destruct (generateAuditID impl _) as [[id | m] w2];
          try destruct (perform impl _ w2) as [[u | m] w3];
          injection R as <- <- <-; eauto.
      * rewrite (post_calculate_rejected impl keys nts data ip w c Ec) in R
          by (rewrite Ee; discriminate).
        injection R as <- <- <-. eauto.
    + rewrite (post_calculate_throws impl keys nts data ip w m Ec) in R.
      injection R as <- <- <-. eauto.
  - intros Hi. apply existsb_exists in Hi as (e & He & Hi).
    apply list_elem_of_In in He.
    destruct e as [X [] ]; try discriminate Hi.
    edestruct (post_calculate_inserted impl keys nts data ip w resp w' trace)
      as (_ & _ & c & Ec & Ee); eauto.
Qed.

(** C8, as stated, fails: a submission whose bicarbonate is zero and the
    same submission without bicarbonate lead to the same call of
    [insertCalculateData], hence to the same stored record. *)
Lemma zero_is_stored_as_absent :
  let zero := <["bicarbonate" := VNumber (S754_zero false)]> Fixture.submission in
  let absent := Fixture.submission in
  let run data :=
    handle Fixture.impl
      (post_calculate Fixture.keys Fixture.number_toString data VUndefined)
      Fixture.empty in
  zero !! "bicarbonate" = Some (VNumber (S754_zero false))
  /\ absent !! "bicarbonate" = None
  /\ filter (fun e => is_insert e = true) (snd (run zero))
     = filter (fun e => is_insert e = true) (snd (run absent))
  /\ existsb is_insert (snd (run zero)) = true
  /\ snd (fst (run zero)) = snd (fst (run absent)).
Proof. vm_compute. repeat split. Qed.

(** C8, amended: the data handed to [insertCalculateData] has, for each of
    bicarbonate, glucose and ketones, the submitted value if it is truthy
    and [null] otherwise, and every other property as submitted.  So an
    absent field is stored as [null], which is not the number zero; and a
    submitted zero is stored as [null] as well. *)
Theorem optional_numeric_fields_normalised {W : Type} (impl : Impl W) (keys : Keys)
    (nts : spec_float -> jsstring) (data : object) (ip : value) (w : W)
    (resp : Response) (w' : W) (trace : list Event)
    (e : Event) (d : object) (h : option jsstring) :
  handle impl (post_calculate keys nts data ip) w = (resp, w', trace) ->
  e ∈ trace -> inserted e = Some (d, h) ->
  (forall k, k ∈ optional_numeric ->
     d !! k = Some (if truthy (get data k) then get data k else VNull))
  /\ (forall k, k ∉ optional_numeric -> d !! k = data !! k)
  /\ (forall k, k ∈ optional_numeric -> data !! k = None ->
        d !! k = Some VNull /\ forall s, VNull <> VNumber (S754_zero s))
  /\ (forall k s, k ∈ optional_numeric -> data !! k = Some (VNumber (S754_zero s)) ->
        d !! k = Some VNull).
Proof.
  intros R He Hi.
  destruct (post_calculate_inserted impl keys nts data ip w resp w' trace e d h R He Hi)
    as (-> & _ & _).
  split; [| split; [| split]].
  - intros k Hk. now rewrite normalised_field.
  - intros k Hk. now apply normalised_other.
  - intros k Hk E. rewrite normalised_field by assumption.
    unfold get. rewrite E. split; [reflexivity | discriminate].
  - intros k s Hk E. rewrite normalised_field by assumption.
    unfold get. rewrite E. reflexivity.
Qed.

(** ** The handlers over the audit record store *)

Section OverStore.

Variable calculator : object -> Result Calculations.
Variable keys : Keys.
Variable nts : spec_float -> jsstring.

Let impl : Impl Store.t := Store.impl calculator.

Lemma draw_fresh recs ids i ids' :
  Store.draw recs ids = Some (i, ids') -> recs !! i = None.
Proof.
  induction ids as [| j ids IH]; simpl; [discriminate |].
  destruct (recs !! j) eqn:Ej; [exact IH |].
  intros [= <- <-]. exact Ej.
Qed.

Lemma lookup_string w id :
  updateCheck impl (VString id) w
  = Ok ((fun r => {| row_patientHash := Store.patientHash r |}) <$> Store.records w !! id).
Proof. reflexivity. Qed.

(** What [/update] does to the store: nothing, or the outcome fields of
    the record of the request are replaced. *)
Lemma post_update_store data w resp w' trace :
  handle impl (post_update keys nts data) w = (resp, w', trace) ->
  (w' = w /\ resp <> complete)
  \/ (exists id,
        get data "auditID" = VString id
        /\ Store.hash_of w id = Some (Some (rehashPatientHash keys nts (get data "patientHash")))
        /\ resp = complete
        /\ w' = {| Store.records :=
                     alter (Store.amend (Store.amendment data)) id (Store.records w);
                   Store.identifiers := Store.identifiers w;
                   Store.deciles := Store.deciles w |}).
Proof.
  intros R.
  destruct (updateCheck impl (get data "auditID") w) as [[row |] | m] eqn:E.
  - destruct (js_neq (row_patientHash row)
                (rehashPatientHash keys nts (get data "patientHash"))) eqn:N.
    + rewrite (post_update_mismatch impl keys nts data w row E N) in R.
      injection R as <- <- <-. left. split; [reflexivity | discriminate].
    + rewrite (post_update_match impl keys nts data w row E N) in R.
      apply js_neq_false in N. right.
      destruct (get data "auditID") as [| | | | id] eqn:Eid; try discriminate E.
      exists id. rewrite lookup_string in E. unfold Store.hash_of.
      destruct (Store.records w !! id) as [r |]; [| discriminate E].
      injection E as <-. cbn in N. cbn [fmap option_fmap option_map].
      rewrite N. cbn [updateData impl Store.impl] in R.
      unfold Store.update in R. rewrite Eid in R.
      injection R as <- <- <-. repeat split.
  - rewrite (post_update_absent impl keys nts data w E) in R.
    injection R as <- <- <-. left. split; [reflexivity | discriminate].
  - destruct (get data "auditID"); discriminate E.
Qed.

Lemma resolve_ok postcode w :
  exists imd, getImdDecile impl postcode w = (Ok imd, w).
Proof. destruct postcode; cbn; eauto. Qed.

(** What [/calculate] does to the records: nothing, or one record is
    created under an identifier that had none. *)
Lemma post_calculate_store data ip w resp w' trace :
  handle impl (post_calculate keys nts data ip) w = (resp, w', trace) ->
  (Store.records w' = Store.records w /\ forall id c, resp <> res_json (BResult id c))
  \/ (exists id c imd,
        resp = res_json (BResult id c)
        /\ calculator data = Ok c /\ errors c = []
        /\ Store.records w !! id = None
        /\ Store.records w'
           = <[id := {| Store.auditID := id;
                        Store.patientHash := stored_hash keys nts data;
                        Store.calculationInputs := normalised data;
                        Store.calculationResults := c;
                        Store.preventableFactors := None;
                        Store.clientIP := ip;
                        Store.imdDecile := imd |}]> (Store.records w)).
Proof.
  intros R.
  destruct (calculateVariables impl data) as [c | m] eqn:Ec.
  - destruct (errors c) as [| x xs] eqn:Ee.
    + rewrite (post_calculate_accepted impl keys nts data ip w c Ec Ee) in R.
      unfold after_gate in R.
      assert (exists imd t1,
                 (if truthy (get data "patientPostcode")
                  then let '(r, w1) := getImdDecile impl (get data "patientPostcode") w in
                       (r, w1, [event (GetImdDecile (get data "patientPostcode"))])
                  else (Ok VNull, w, []))
                 = (Ok imd, w, t1)) as (imd & t1 & E).
      { destruct (truthy (get data "patientPostcode")); [| eauto].
        destruct (resolve_ok (get data "patientPostcode") w) as [imd ->]. eauto. }
      rewrite E in R. clear E.
      cbn [generateAuditID impl Store.impl] in R. unfold Store.generateUniqueID in R.
      destruct (Store.draw (Store.records w) (Store.identifiers w))
        as [[id ids] |] eqn:Ed.
      * apply draw_fresh in Ed. cbn in R. injection R as <- <- <-.
        right. exists id, c, imd. repeat split; assumption.
      * injection R as <- <- <-. left. split; [reflexivity | discriminate].
    + rewrite (post_calculate_rejected impl keys nts data ip w c Ec) in R
        by (rewrite Ee; discriminate).
      injection R as <- <- <-. left. split; [reflexivity | discriminate].
  - rewrite (post_calculate_throws impl keys nts data ip w m Ec) in R.
    injection R as <- <- <-. left. split; [reflexivity | discriminate].
Qed.

(** No request changes the stored hash of a record that exists. *)
Lemma serve_keeps_hash r w id h :
  Store.hash_of w id = Some h ->
  Store.hash_of (snd (serve keys nts impl r w)) id = Some h.
Proof.
  intros H. unfold serve.
  destruct (handle impl (route keys nts r) w) as [[resp w'] t] eqn:R.
  cbn [fst snd]. destruct r as [data ip | data]; cbn [route] in R.
  - apply post_calculate_store in R as [[E _] | (i & c & imd & _ & _ & _ & Ei & E)];
      unfold Store.hash_of in *; rewrite E; [exact H |].
    rewrite lookup_insert_ne; [exact H |].
    intros <-. rewrite Ei in H. discriminate H.
  - apply post_update_store in R as [[-> _] | (i & _ & _ & _ & ->)]; [exact H |].
    unfold Store.hash_of in *. cbn [Store.records]. rewrite lookup_alter.
    case_decide; [| exact H]. subst i.
    destruct (Store.records w !! id) as [rec |]; [| discriminate H].
    exact H.
Qed.

Lemma serve_all_keeps_hash rs : forall w id h,
  Store.hash_of w id = Some h ->
  Store.hash_of (snd (serve_all keys nts impl rs w)) id = Some h.
Proof.
  induction rs as [| r rs IH]; intros w id h H; cbn [serve_all]; [exact H |].
  pose proof (serve_keeps_hash r w id h H) as H1.
  destruct (serve keys nts impl r w) as [resp w1]. cbn [snd] in H1.
  specialize (IH w1 id h H1).
  destruct (serve_all keys nts impl rs w1) as [resps w2]. exact IH.
Qed.

(** An update against a record whose stored hash is not the derived one is
    refused, and changes nothing. *)
Lemma post_update_refused data w id h :
  get data "auditID" = VString id ->
  Store.hash_of w id = Some h ->
  h <> Some (rehashPatientHash keys nts (get data "patientHash")) ->
  handle impl (post_update keys nts data) w
  = (unauthorized nts (VString id), w, [event (UpdateCheck (VString id))]).
Proof.
  intros Eid H N. unfold Store.hash_of in H.
  destruct (Store.records w !! id) as [rec |] eqn:Er; [| discriminate H].
  injection H as <-.
  rewrite <- Eid.
  apply (post_update_mismatch impl keys nts data w
           {| row_patientHash := Store.patientHash rec |}).
  - rewrite Eid, lookup_string, Er. reflexivity.
  - apply js_neq_true. exact N.
Qed.

(** An update against a record whose stored hash is the derived one
    replaces the outcome fields of this record. *)
Lemma post_update_accepted data w id :
  get data "auditID" = VString id ->
  Store.hash_of w id = Some (Some (rehashPatientHash keys nts (get data "patientHash"))) ->
  handle impl (post_update keys nts data) w
  = (complete,
     {| Store.records := alter (Store.amend (Store.amendment data)) id (Store.records w);
        Store.identifiers := Store.identifiers w;
        Store.deciles := Store.deciles w |},
     [event (UpdateCheck (VString id)); event (UpdateData data)]).
Proof.
  intros Eid H. unfold Store.hash_of in H.
  destruct (Store.records w !! id) as [rec |] eqn:Er; [| discriminate H].
  injection H as H.
  rewrite (post_update_match impl keys nts data w
             {| row_patientHash := Store.patientHash rec |}).
  - cbn [updateData impl Store.impl]. unfold Store.update. rewrite Eid. reflexivity.
  - rewrite Eid, lookup_string, Er. reflexivity.
  - apply js_neq_false. exact H.
Qed.

(** The record a submission that was answered with an audit ID has
    created holds the hash of the submitted pre-hash, or [null]. *)
Lemma created_hash data ip w id c w1 t :
  handle impl (post_calculate keys nts data ip) w = (res_json (BResult id c), w1, t) ->
  Store.hash_of w1 id = Some (stored_hash keys nts data).
Proof.
  intros R.
  apply post_calculate_store in R as [[_ N] | (i & c' & imd & E & _ & _ & _ & Er)].
  - now destruct (N id c).
  - injection E as -> ->. unfold Store.hash_of. rewrite Er, lookup_insert_eq. reflexivity.
Qed.

(** A record created from a falsy pre-hash has no stored hash, and every
    later update against it is refused. *)
Lemma store_falsy_pre_hash data ip w id c w1 t :
  truthy (get data "patientHash") = false ->
  handle impl (post_calculate keys nts data ip) w = (res_json (BResult id c), w1, t) ->
  Store.hash_of w1 id = Some None
  /\ forall rs upd,
      get upd "auditID" = VString id ->
      handle impl (post_update keys nts upd) (snd (serve_all keys nts impl rs w1))
      = (unauthorized nts (VString id), snd (serve_all keys nts impl rs w1),
         [event (UpdateCheck (VString id))]).
Proof.
  intros F R. apply created_hash in R. unfold stored_hash in R. rewrite F in R.
  split; [exact R |]. intros rs upd Eid.
  apply (post_update_refused upd _ id None Eid); [| discriminate].
  now apply serve_all_keeps_hash.
Qed.

(** Over the store, the round trip: a record created from a non-empty
    pre-hash [H] accepts, after any further requests, an update that submits
    [H], whose amendment fields become its outcome fields, and refuses one
    whose derived hash is another. *)
Lemma store_round_trip data ip w id c w1 t H rs upd :
  get data "patientHash" = VString H -> H <> [] ->
  handle impl (post_calculate keys nts data ip) w = (res_json (BResult id c), w1, t) ->
  get upd "auditID" = VString id ->
  (get upd "patientHash" = VString H ->
   exists w3 t3,
     handle impl (post_update keys nts upd) (snd (serve_all keys nts impl rs w1))
     = (complete, w3, t3)
     /\ Store.preventableFactors <$> Store.records w3 !! id
        = Some (Some (Store.amendment upd)))
  /\ (rehashPatientHash keys nts (get upd "patientHash")
      <> rehashPatientHash keys nts (VString H) ->
      handle impl (post_update keys nts upd) (snd (serve_all keys nts impl rs w1))
      = (unauthorized nts (VString id), snd (serve_all keys nts impl rs w1),
         [event (UpdateCheck (VString id))])).
Proof.
  intros EH NH R Eid.
  apply created_hash in R. unfold stored_hash in R. rewrite EH in R.
  destruct H as [| h0 H']; [contradiction |]. cbn [truthy] in R.
  apply (serve_all_keeps_hash rs) in R.
  set (w2 := snd (serve_all keys nts impl rs w1)) in *.
  split.
  - intros EU. rewrite <- EU in R.
    rewrite (post_update_accepted upd w2 id Eid R).
    eexists _, _. split; [reflexivity |].
    cbn [Store.records]. rewrite lookup_alter_eq. unfold Store.hash_of in R.
    destruct (Store.records w2 !! id); [reflexivity | discriminate R].
  - intros N. apply (post_update_refused upd w2 id _ Eid R). congruence.
Qed.

End OverStore.

(** ** The verification gate, from creation to amendment *)

Section Gate.

Context {W : Type} (impl : Impl W).
Variable keys : Keys.
Variable nts : spec_float -> jsstring.

(** A record created from a falsy pre-hash is created without a hash, and
    an update that finds a row without a hash is refused. *)
Lemma falsy_pre_hash_refused data ip w resp w1 trace e d h :
  truthy (get data "patientHash") = false ->
  handle impl (post_calculate keys nts data ip) w = (resp, w1, trace) ->
  e ∈ trace -> inserted e = Some (d, h) ->
  h = None
  /\ forall (upd : object) (w2 : W) (row : CheckRow),
      updateCheck impl (get upd "auditID") w2 = Ok (Some row) ->
      row_patientHash row = h ->
      handle impl (post_update keys nts upd) w2
      = (unauthorized nts (get upd "auditID"), w2,
         [event (UpdateCheck (get upd "auditID"))]).
Proof.
  intros F R He Hi.
  destruct (post_calculate_inserted impl keys nts data ip w resp w1 trace e d h R He Hi)
    as (_ & -> & _).
  unfold stored_hash. rewrite F. split; [reflexivity |].
  intros upd w2 row E N. apply (post_update_mismatch impl keys nts upd w2 row E).
  now rewrite N.
Qed.

End Gate.

(** C2: a submission whose pre-hash is absent or [null] is handed to
    [insertCalculateData] with the hash [null]; and every update for which
    [updateCheck] resolves to a row holding this stored hash, whatever
    pre-hash it submits and whenever it comes, is answered with 401, with
    the lookup as its only call and the world left as it was. *)
Theorem null_pre_hash_never_amended {W : Type} (impl : Impl W) (keys : Keys)
    (nts : spec_float -> jsstring) (data : object) (ip : value) (w : W)
    (resp : Response) (w1 : W) (trace : list Event)
    (e : Event) (d : object) (h : option jsstring) :
  get data "patientHash" = VUndefined \/ get data "patientHash" = VNull ->
  handle impl (post_calculate keys nts data ip) w = (resp, w1, trace) ->
  e ∈ trace -> inserted e = Some (d, h) ->
  h = None
  /\ forall (upd : object) (w2 : W) (row : CheckRow),
      updateCheck impl (get upd "auditID") w2 = Ok (Some row) ->
      row_patientHash row = h ->
      handle impl (post_update keys nts upd) w2
      = (res_status_json 401
           (BJson (VString (mismatch_message nts (get upd "auditID")))),
         w2, [event (UpdateCheck (get upd "auditID"))]).
Proof.
  intros F. apply falsy_pre_hash_refused. now destruct F as [-> | ->].
Qed.

(** C10: a submission whose pre-hash is the empty string is handed to
    [insertCalculateData] with the hash [null], the hash of the same
    submission without a pre-hash; and every update for which [updateCheck]
    resolves to a row holding this stored hash is answered with 401, with
    the lookup as its only call and the world left as it was. *)
Theorem empty_pre_hash_never_amended {W : Type} (impl : Impl W) (keys : Keys)
    (nts : spec_float -> jsstring) (data : object) (ip : value) (w : W)
    (resp : Response) (w1 : W) (trace : list Event)
    (e : Event) (d : object) (h : option jsstring) :
  get data "patientHash" = VString [] ->
  handle impl (post_calculate keys nts data ip) w = (resp, w1, trace) ->
  e ∈ trace -> inserted e = Some (d, h) ->
  h = None
  /\ h = stored_hash keys nts (delete "patientHash" data)
  /\ forall (upd : object) (w2 : W) (row : CheckRow),
      updateCheck impl (get upd "auditID") w2 = Ok (Some row) ->
      row_patientHash row = h ->
      handle impl (post_update keys nts upd) w2
      = (res_status_json 401
           (BJson (VString (mismatch_message nts (get upd "auditID")))),
         w2, [event (UpdateCheck (get upd "auditID"))]).
Proof.
  intros F R He Hi.
  destruct (falsy_pre_hash_refused impl keys nts data ip w resp w1 trace e d h)
    as [-> U]; try assumption; [now rewrite F |].
  split; [reflexivity |]. split; [| exact U].
  unfold stored_hash, get. now rewrite lookup_delete_eq.
Qed.

(** C6, as stated, fails twice.  A record created with the empty string as
    its pre-hash refuses an amendment that submits the same pre-hash; and a
    record created with a pre-hash that has an unpaired surrogate accepts
    an amendment that submits another pre-hash, with another surrogate. *)
Lemma round_trip_fails :
  let created H :=
    snd (fst (handle Fixture.impl
                (post_calculate Fixture.keys Fixture.number_toString
                   (<["patientHash" := VString H]> Fixture.submission) VUndefined)
                Fixture.empty)) in
  let amend H' w :=
    handle Fixture.impl
      (post_update Fixture.keys Fixture.number_toString
         (Fixture.amendment_request (lit "AUDIT-1") H')) w in
  (is_Some (Store.records (created []) !! lit "AUDIT-1")
   /\ status (fst (fst (amend [] (created [])))) = 401
   /\ snd (fst (amend [] (created []))) = created [])
  /\ ([0xD801; 65] <> [0xD800; 65]
      /\ is_Some (Store.records (created [0xD800; 65]) !! lit "AUDIT-1")
      /\ Store.amended (created [0xD800; 65]) (lit "AUDIT-1") = false
      /\ status (fst (fst (amend [0xD801; 65] (created [0xD800; 65])))) = 200
      /\ Store.amended (snd (fst (amend [0xD801; 65] (created [0xD800; 65]))))
           (lit "AUDIT-1") = true).
Proof.
  cbv zeta. split; [| split; [discriminate |]].
  - split; [vm_compute; eexists; reflexivity |].
    split; vm_compute; reflexivity.
  - split; [vm_compute; eexists; reflexivity |].
    split; [vm_compute; reflexivity |].
    split; vm_compute; reflexivity.
Qed.

(** C6, amended: a submission with a non-empty pre-hash [H] is handed to
    [insertCalculateData] with the hash derived from [H].  An update for
    which [updateCheck] resolves to a row holding this stored hash, and
    which submits [H], passes the gate: [updateData] is called with the
    request, and the answer is the confirmation once it returns.  One that
    submits a pre-hash whose derived hash is not that of [H] is answered
    with 401, with the lookup as its only call and the world left as it
    was. *)
Theorem round_trip {W : Type} (impl : Impl W) (keys : Keys)
    (nts : spec_float -> jsstring) (data : object) (ip : value) (w : W)
    (resp : Response) (w1 : W) (trace : list Event)
    (e : Event) (d : object) (h : option jsstring) (H : jsstring) :
  get data "patientHash" = VString H -> H <> [] ->
  handle impl (post_calculate keys nts data ip) w = (resp, w1, trace) ->
  e ∈ trace -> inserted e = Some (d, h) ->
  h = Some (rehashPatientHash keys nts (VString H))
  /\ forall (upd : object) (w2 : W) (row : CheckRow),
      updateCheck impl (get upd "auditID") w2 = Ok (Some row) ->
      row_patientHash row = h ->
      (get upd "patientHash" = VString H ->
       handle impl (post_update keys nts upd) w2
       = (match fst (updateData impl upd w2) with
          | Ok _ => res_json (BJson (VString (lit "Audit data update complete")))
          | Throw m => res_status_json 500 (BJson m)
          end,
          snd (updateData impl upd w2),
          [event (UpdateCheck (get upd "auditID")); event (UpdateData upd)]))
      /\ (rehashPatientHash keys nts (get upd "patientHash")
          <> rehashPatientHash keys nts (VString H) ->
          handle impl (post_update keys nts upd) w2
          = (res_status_json 401
               (BJson (VString (mismatch_message nts (get upd "auditID")))),
             w2, [event (UpdateCheck (get upd "auditID"))])).
Proof.
  intros EH NH R He Hi.
  destruct (post_calculate_inserted impl keys nts data ip w resp w1 trace e d h R He Hi)
    as (_ & -> & _).
  unfold stored_hash. rewrite EH.
  destruct H as [| h0 H']; [contradiction |]. cbn [truthy].
  split; [reflexivity |]. intros upd w2 row E Er. split.
  - intros EU. apply (post_update_match impl keys nts upd w2 row E).
    apply js_neq_false. now rewrite Er, EU.
  - intros N. apply (post_update_mismatch impl keys nts upd w2 row E).
    apply js_neq_true. rewrite Er. congruence.
Qed.

(** C7: over the audit record store, a run of [/update] never calls
    [insertCalculateData]; whatever the answer, every record keeps its
    audit ID and its stored hash, and everything else it was created with;
    records other than the one of the request, the identifiers still to be
    drawn and the deciles are as before; and when the answer is the
    confirmation, the outcome fields of the record of the request are the
    amendment fields of the request. *)
Theorem update_rewrites_outcome_only (calculator : object -> Result Calculations)
    (keys : Keys) (nts : spec_float -> jsstring) (data : object) (w : Store.t)
    (resp : Response) (w' : Store.t) (trace : list Event) :
  handle (Store.impl calculator) (post_update keys nts data) w = (resp, w', trace) ->
  existsb is_insert trace = false
  /\ (forall id,
        Store.creation_fields <$> Store.records w' !! id
        = Store.creation_fields <$> Store.records w !! id)
  /\ (forall id,
        get data "auditID" <> VString id ->
        Store.records w' !! id = Store.records w !! id)
  /\ Store.identifiers w' = Store.identifiers w
  /\ Store.deciles w' = Store.deciles w
  /\ (resp = complete ->
      exists id, get data "auditID" = VString id
        /\ Store.preventableFactors <$> Store.records w' !! id
           = Some (Some (Store.amendment data))).
Proof.
  intros R. split.
  { destruct (updateCheck (Store.impl calculator) (get data "auditID") w)
      as [[row |] | m] eqn:E.
    - destruct (js_neq (row_patientHash row)
                  (rehashPatientHash keys nts (get data "patientHash"))) eqn:N.
      + rewrite (post_update_mismatch _ keys nts data w row E N) in R.
        now injection R as <- <- <-.
      + rewrite (post_update_match _ keys nts data w row E N) in R.
        now injection R as <- <- <-.
    - rewrite (post_update_absent _ keys nts data w E) in R.
      now injection R as <- <- <-.
    - destruct (get data "auditID"); discriminate E. }
  apply post_update_store in R as [[-> N] | (i & Eid & H & -> & ->)].
  - repeat split; try reflexivity. intros E. now destruct N.
  - cbn [Store.records Store.identifiers Store.deciles]. repeat split.
    + intros id. rewrite lookup_alter. case_decide; [subst i | reflexivity].
      destruct (Store.records w !! id); reflexivity.
    + intros id N. rewrite lookup_alter_ne; [reflexivity |]. congruence.
    + intros _. exists i. split; [exact Eid |].
      rewrite lookup_alter_eq. unfold Store.hash_of in H.
      destruct (Store.records w !! i); [reflexivity | discriminate H].
Qed.

(** ** What else the handlers guarantee *)

(** X1: a run of [/update] calls [updateCheck], and after it at most
    [updateData] with the data of the request; it calls nothing else, and
    when [updateData] is not called the world is left as it was. *)
Theorem update_calls {W : Type} (impl : Impl W) (keys : Keys)
    (nts : spec_float -> jsstring) (data : object) (w : W)
    (resp : Response) (w' : W) (trace : list Event) :
  handle impl (post_update keys nts data) w = (resp, w', trace) ->
  (trace = [event (UpdateCheck (get data "auditID"))] /\ w' = w)
  \/ (trace = [event (UpdateCheck (get data "auditID")); event (UpdateData data)]
      /\ w' = snd (updateData impl data w)).
Proof.
  intros R.
  destruct (updateCheck impl (get data "auditID") w) as [[row |] | m] eqn:E.
  - destruct (js_neq (row_patientHash row)
                (rehashPatientHash keys nts (get data "patientHash"))) eqn:N.
    + rewrite (post_update_mismatch impl keys nts data w row E N) in R.
      injection R as <- <- <-. now left.
    + rewrite (post_update_match impl keys nts data w row E N) in R.
      injection R as <- <- <-. now right.
  - rewrite (post_update_absent impl keys nts data w E) in R.
    injection R as <- <- <-. now left.
  - unfold post_update in R. run_step. unfold handle in R.
    cbn [run mbind mret prog_mbind prog_mret prog_bind call perform] in R.
    rewrite E in R. injection R as <- <- <-. now left.
Qed.

(** X2: an answer of [/calculate] with status 200 carries the audit ID that
    [generateAuditID] gave and the calculations, which are without errors.
    The run is all of the source's: the decile is what [getImdDecile]
    resolved for a truthy postcode and [null] otherwise, the audit ID of
    the answer is the one [generateAuditID] returned in the world the
    postcode step left, and [insertCalculateData] was called last, under
    this audit ID and in the world [generateAuditID] left, with the
    normalised data and the hash of the submitted pre-hash, and returned. *)
Theorem calculate_answer_means_inserted {W : Type} (impl : Impl W) (keys : Keys)
    (nts : spec_float -> jsstring) (data : object) (ip : value) (w : W)
    (resp : Response) (w' : W) (trace : list Event) :
  handle impl (post_calculate keys nts data ip) w = (resp, w', trace) ->
  status resp = 200 ->
  exists id c imd w1 w2,
    resp = res_json (BResult id c)
    /\ calculateVariables impl data = Ok c /\ errors c = []
    /\ (if truthy (get data "patientPostcode")
        then getImdDecile impl (get data "patientPostcode") w = (Ok imd, w1)
        else imd = VNull /\ w1 = w)
    /\ generateAuditID impl w1 = (Ok id, w2)
    /\ trace
       = event (CalculateVariables data)
         :: (if truthy (get data "patientPostcode")
             then [event (GetImdDecile (get data "patientPostcode"))] else [])
         ++ [event GenerateAuditID;
             event (InsertCalculateData (normalised data) imd id
                      (stored_hash keys nts data) ip c)]
    /\ event (InsertCalculateData (normalised data) imd id
                (stored_hash keys nts data) ip c) ∈ trace
    /\ insertCalculateData impl (normalised data) imd id
         (stored_hash keys nts data) ip c w2 = (Ok tt, w').
Proof.
  intros R S.
  destruct (calculateVariables impl data) as [c | m] eqn:Ec.
  - destruct (errors c) as [| x xs] eqn:Ee.
    + rewrite (post_calculate_accepted impl keys nts data ip w c Ec Ee) in R.
      unfold after_gate in R. cbn [perform] in R.
      destruct (truthy (get data "patientPostcode"));
        [destruct (getImdDecile impl _ w) as [[imd | m] w1] eqn:Eg |];
        try destruct (generateAuditID impl _) as [[id | m] w2] eqn:Ea;
        try destruct (insertCalculateData impl _ _ _ _ _ _ w2) as [[[] | m] w3] eqn:Ei;
        injection R as <- <- <-; try discriminate S;
        eexists _, _, _, _, _; (split; [reflexivity |]); (split; [reflexivity |]);
        (split; [exact Ee |]);
        (split; [first [reflexivity | split; reflexivity] |]);
        (split; [exact Ea |]); (split; [reflexivity |]);
        (split; [| exact Ei]);
        cbn [app]; rewrite !elem_of_cons; auto.
    + rewrite (post_calculate_rejected impl keys nts data ip w c Ec) in R
        by (rewrite Ee; discriminate).
      injection R as <- <- <-. discriminate S.
  - rewrite (post_calculate_throws impl keys nts data ip w m Ec) in R.
    injection R as <- <- <-. discriminate S.
Qed.

(** ** The calls of the calculate handler *)

(** Splits on the calls left in a run [R] of [/calculate] after the
    postcode was looked at. *)
Ltac rest_of_run impl R :=
  cbn [perform] in R;
  try match type of R with
      | context [getImdDecile impl ?a ?b] =>
          destruct (getImdDecile impl a b) as [[?imd | ?m] ?w] eqn:?
      end;
  try match type of R with
      | context [generateAuditID impl ?b] =>
          destruct (generateAuditID impl b) as [[?id | ?m] ?w] eqn:?
      end;
  try match type of R with
      | context [insertCalculateData impl ?a ?b ?c ?d ?e ?f ?g] =>
          destruct (insertCalculateData impl a b c d e f g) as [[[] | ?m] ?w] eqn:?
      end;
  injection R as <- <- <-.

(** Finds which call of an explicit trace a call is. *)
Ltac which_call He :=
  cbn [app] in He;
  repeat (apply elem_of_cons in He as [-> | He]);
  try (now apply elem_of_nil in He).

(** No call of a trace went to the postcode lookup. *)
Ltac no_lookup :=
  cbn; rewrite !not_elem_of_cons; repeat split; try discriminate; apply not_elem_of_nil.

(** X3: the calls of a run of [/calculate] are a non-empty beginning of
    [calculateVariables], [getImdDecile] (only for a truthy postcode),
    [generateAuditID], [insertCalculateData], each called at most once and
    in this order; an answer with status 200 has made all of them. *)
Theorem calculate_calls {W : Type} (impl : Impl W) (keys : Keys)
    (nts : spec_float -> jsstring) (data : object) (ip : value) (w : W)
    (resp : Response) (w' : W) (trace : list Event) :
  handle impl (post_calculate keys nts data ip) w = (resp, w', trace) ->
  map call_name trace `prefix_of` calculate_order data
  /\ trace <> []
  /\ (status resp = 200 -> map call_name trace = calculate_order data).
Proof.
  intros R. unfold calculate_order.
  destruct (calculateVariables impl data) as [c | m] eqn:Ec;
    [destruct (errors c) as [| x xs] eqn:Ee |].
  - rewrite (post_calculate_accepted impl keys nts data ip w c Ec Ee) in R.
    unfold after_gate in R.
    destruct (truthy (get data "patientPostcode")); rest_of_run impl R;
      (split; [eexists; reflexivity |]); (split; [discriminate |]);
      intros S; try discriminate S; reflexivity.
  - rewrite (post_calculate_rejected impl keys nts data ip w c Ec) in R
      by (rewrite Ee; discriminate).
    injection R as <- <- <-.
    split; [eexists; reflexivity |]. split; discriminate.
  - rewrite (post_calculate_throws impl keys nts data ip w m Ec) in R.
    injection R as <- <- <-.
    split; [eexists; reflexivity |]. split; discriminate.
Qed.

(** X4: when the postcode of a submission is falsy (absent, [null], the
    empty string), [getImdDecile] is not called and the decile handed to
    [insertCalculateData] is [null]; when it is truthy, the decile handed
    over is what [getImdDecile] returned for this postcode in the world
    of the request. *)
Theorem calculate_decile {W : Type} (impl : Impl W) (keys : Keys)
    (nts : spec_float -> jsstring) (data : object) (ip : value) (w : W)
    (resp : Response) (w' : W) (trace : list Event) :
  handle impl (post_calculate keys nts data ip) w = (resp, w', trace) ->
  (truthy (get data "patientPostcode") = false ->
   ("getImdDecile" ∉ map call_name trace)
   /\ forall e imd, e ∈ trace -> inserted_decile e = Some imd -> imd = VNull)
  /\ (truthy (get data "patientPostcode") = true ->
      forall e imd, e ∈ trace -> inserted_decile e = Some imd ->
        fst (getImdDecile impl (get data "patientPostcode") w) = Ok imd).
Proof.
  intros R.
  destruct (calculateVariables impl data) as [c | m] eqn:Ec;
    [destruct (errors c) as [| x xs] eqn:Ee |].
  - rewrite (post_calculate_accepted impl keys nts data ip w c Ec Ee) in R.
    unfold after_gate in R. split; intros F; rewrite F in R.
    + rest_of_run impl R; (split; [no_lookup |]);
        intros e i He Hi; which_call He; try discriminate Hi;
        cbn in Hi; now injection Hi as <-.
    + rest_of_run impl R; intros e i He Hi; which_call He; try discriminate Hi;
        cbn in Hi; now injection Hi as <-.
  - rewrite (post_calculate_rejected impl keys nts data ip w c Ec) in R
      by (rewrite Ee; discriminate).
    injection R as <- <- <-.
    split; intros F; [split; [no_lookup |] |];
      intros e i He Hi; which_call He; discriminate Hi.
  - rewrite (post_calculate_throws impl keys nts data ip w m Ec) in R.
    injection R as <- <- <-.
    split; intros F; [split; [no_lookup |] |];
      intros e i He Hi; which_call He; discriminate Hi.
Qed.

(** X5: when the calculation has passed and [getImdDecile] throws for the
    postcode of the submission, the answer is 500 with the message of the
    error, and neither [generateAuditID] nor [insertCalculateData] is
    called: no record is created. *)
Theorem postcode_failure_blocks_creation {W : Type} (impl : Impl W) (keys : Keys)
    (nts : spec_float -> jsstring) (data : object) (ip : value) (w : W)
    (c : Calculations) (m : value) (w1 : W) :
  calculateVariables impl data = Ok c -> errors c = [] ->
  truthy (get data "patientPostcode") = true ->
  getImdDecile impl (get data "patientPostcode") w = (Throw m, w1) ->
  handle impl (post_calculate keys nts data ip) w
  = (res_status_json 500 (BJson m), w1,
     [event (CalculateVariables data);
      event (GetImdDecile (get data "patientPostcode"))]).
Proof.
  intros Ec Ee F G.
  rewrite (post_calculate_accepted impl keys nts data ip w c Ec Ee).
  unfold after_gate. now rewrite F, G.
Qed.

(** X6: an answer of [/calculate] other than 200 carries no audit ID; and
    then [insertCalculateData] was not called at all, or it was the last
    call and it threw the error whose message is the answer. *)
Theorem calculate_failure_inserts_nothing {W : Type} (impl : Impl W) (keys : Keys)
    (nts : spec_float -> jsstring) (data : object) (ip : value) (w : W)
    (resp : Response) (w' : W) (trace : list Event) :
  handle impl (post_calculate keys nts data ip) w = (resp, w', trace) ->
  status resp <> 200 ->
  (forall id c, body resp <> BResult id c)
  /\ (existsb is_insert trace = false
      \/ exists id c imd w2 m,
           last trace = Some (event (InsertCalculateData (normalised data) imd id
                                       (stored_hash keys nts data) ip c))
           /\ insertCalculateData impl (normalised data) imd id
                (stored_hash keys nts data) ip c w2 = (Throw m, w')
           /\ resp = res_status_json 500 (BJson m)).
Proof.
  intros R S.
  destruct (calculateVariables impl data) as [c | m] eqn:Ec;
    [destruct (errors c) as [| x xs] eqn:Ee |].
  - rewrite (post_calculate_accepted impl keys nts data ip w c Ec Ee) in R.
    unfold after_gate in R.
    destruct (truthy (get data "patientPostcode")); rest_of_run impl R;
      try (now destruct S);
      (split; [discriminate |]); try (left; reflexivity);
      right; eexists _, _, _, _, _; repeat split; eassumption.
  - rewrite (post_calculate_rejected impl keys nts data ip w c Ec) in R
      by (rewrite Ee; discriminate).
    injection R as <- <- <-. split; [discriminate | now left].
  - rewrite (post_calculate_throws impl keys nts data ip w m Ec) in R.
    injection R as <- <- <-. split; [discriminate | now left].
Qed.

(** X7: the status of an answer of [/calculate] is 200, 400 or 500.  It is
    400 exactly when [calculateVariables] returned a non-empty errors list,
    which is then the body; when [calculateVariables] throws, the answer is
    500 with the message of the error and the world is left as it was; and
    every answer with status 500 has the message of an error as its
    body. *)
Theorem calculate_status {W : Type} (impl : Impl W) (keys : Keys)
    (nts : spec_float -> jsstring) (data : object) (ip : value) (w : W)
    (resp : Response) (w' : W) (trace : list Event) :
  handle impl (post_calculate keys nts data ip) w = (resp, w', trace) ->
  (status resp = 200 \/ status resp = 400 \/ status resp = 500)
  /\ (status resp = 400
      <-> exists c, calculateVariables impl data = Ok c /\ errors c <> [])
  /\ (forall c, calculateVariables impl data = Ok c -> errors c <> [] ->
        body resp = BErrors (errors c))
  /\ (forall m, calculateVariables impl data = Throw m ->
        resp = res_status_json 500 (BJson m) /\ w' = w)
  /\ (status resp = 500 -> exists m, body resp = BJson m).
Proof.
  intros R.
  destruct (calculateVariables impl data) as [c | m] eqn:Ec;
    [destruct (errors c) as [| x xs] eqn:Ee |].
  - rewrite (post_calculate_accepted impl keys nts data ip w c Ec Ee) in R.
    unfold after_gate in R.
    destruct (truthy (get data "patientPostcode")); rest_of_run impl R;
      cbn [status body res_json res_status_json];
      (split; [auto |]);
      (split; [split; [discriminate | intros (c' & [= <-] & N); now destruct N] |]);
      (split; [intros c' [= <-] N; now destruct N |]);
      (split; [discriminate |]);
      intros S; try discriminate S; eauto.
  - rewrite (post_calculate_rejected impl keys nts data ip w c Ec) in R
      by (rewrite Ee; discriminate).
    injection R as <- <- <-. cbn [status body res_status_json].
    split; [auto |].
    split; [split; [intros _; exists c; split; [reflexivity | rewrite Ee; discriminate]
                   | reflexivity] |].
    split; [now intros c' [= <-] _ |].
    split; discriminate.
  - rewrite (post_calculate_throws impl keys nts data ip w m Ec) in R.
    injection R as <- <- <-. cbn [status body res_status_json].
    split; [auto |].
    split; [split; [discriminate | now intros (c' & E & _)] |].
    split; [discriminate |].
    split; [now intros m' [= <-] | eauto].
Qed.

(** X11: the three assignments of [/calculate] to the optional numeric
    fields can be repeated without effect; after them each of the three
    fields is there; and a submission in which all three are truthy is
    handed over as it was submitted. *)
Theorem normalised_idempotent (data : object) :
  normalised (normalised data) = normalised data
  /\ (forall k, k ∈ optional_numeric -> is_Some (normalised data !! k))
  /\ ((forall k, k ∈ optional_numeric ->
         exists v, data !! k = Some v /\ truthy v = true) ->
      normalised data = data).
Proof.
  assert (forall v, js_or (js_or v VNull) VNull = js_or v VNull) as Hor.
  { intros v. unfold js_or. now destruct (truthy v) eqn:E; [rewrite E |]. }
  assert (forall d k, k ∈ optional_numeric ->
            get (normalised d) k = js_or (get d k) VNull) as Hget.
  { intros d k Hk. unfold get at 1. now rewrite normalised_field. }
  split; [| split].
  - apply map_eq. intros k.
    destruct (decide (k ∈ optional_numeric)) as [Hk | Hk].
    + rewrite (normalised_field (normalised data) k Hk).
      rewrite (Hget data k Hk), (normalised_field data k Hk). now rewrite Hor.
    + now rewrite !normalised_other.
  - intros k Hk. rewrite normalised_field by assumption. eauto.
  - intros T. apply map_eq. intros k.
    destruct (decide (k ∈ optional_numeric)) as [Hk | Hk].
    + rewrite normalised_field by assumption.
      destruct (T k Hk) as (v & E & Tv). unfold get. rewrite E. simpl.
      unfold js_or. now rewrite Tv.
    + now apply normalised_other.
Qed.

(** ** The answers of the update handler *)

Section UpdateThrows.

Context {W : Type} (impl : Impl W).
Variable keys : Keys.
Variable nts : spec_float -> jsstring.

Lemma post_update_throws data w m :
  updateCheck impl (get data "auditID") w = Throw m ->
  handle impl (post_update keys nts data) w
  = (res_status_json 500 (BJson m), w, [event (UpdateCheck (get data "auditID"))]).
Proof. intros E. unfold post_update. run_step. rewrite E. reflexivity. Qed.

End UpdateThrows.

(** Takes apart the hypotheses of a case of the status table and closes
    it. *)
Ltac status_case :=
  repeat split; try discriminate; intros; eauto 6;
  repeat match goal with
         | H : exists _, _ |- _ => destruct H
         | H : _ /\ _ |- _ => destruct H
         | H : _ \/ _ |- _ => destruct H
         end; congruence.

(** X8: the status of an answer of [/update] tells what happened.  It is
    404 exactly when [updateCheck] found nothing; 401 exactly when it found
    a row whose stored hash is not the hash derived from the submitted
    pre-hash; 200 exactly when it found a row whose stored hash is the
    derived one and [updateData] returned; and 500 exactly when
    [updateCheck] threw, or the hashes matched and [updateData] threw. *)
Theorem update_status_table {W : Type} (impl : Impl W) (keys : Keys)
    (nts : spec_float -> jsstring) (data : object) (w : W)
    (resp : Response) (w' : W) (trace : list Event) :
  handle impl (post_update keys nts data) w = (resp, w', trace) ->
  (status resp = 404 <-> updateCheck impl (get data "auditID") w = Ok None)
  /\ (status resp = 401
      <-> exists row,
            updateCheck impl (get data "auditID") w = Ok (Some row)
            /\ row_patientHash row
               <> Some (rehashPatientHash keys nts (get data "patientHash")))
  /\ (status resp = 200
      <-> exists row u,
            updateCheck impl (get data "auditID") w = Ok (Some row)
            /\ row_patientHash row
               = Some (rehashPatientHash keys nts (get data "patientHash"))
            /\ fst (updateData impl data w) = Ok u)
  /\ (status resp = 500
      <-> (exists m, updateCheck impl (get data "auditID") w = Throw m)
          \/ (exists row m,
                updateCheck impl (get data "auditID") w = Ok (Some row)
                /\ row_patientHash row
                   = Some (rehashPatientHash keys nts (get data "patientHash"))
                /\ fst (updateData impl data w) = Throw m)).
Proof.
  intros R.
  destruct (updateCheck impl (get data "auditID") w) as [[row |] | m] eqn:E.
  - destruct (js_neq (row_patientHash row)
                (rehashPatientHash keys nts (get data "patientHash"))) eqn:N.
    + rewrite (post_update_mismatch impl keys nts data w row E N) in R.
      injection R as <- <- <-. apply js_neq_true in N.
      cbn [status unauthorized res_status_json]. status_case.
    + rewrite (post_update_match impl keys nts data w row E N) in R.
      injection R as <- <- <-. apply js_neq_false in N.
      destruct (updateData impl data w) as [[u | m] w2];
        cbn [fst status complete res_status_json res_json]; status_case.
  - rewrite (post_update_absent impl keys nts data w E) in R.
    injection R as <- <- <-. cbn [status not_found res_status_json]. status_case.
  - rewrite (post_update_throws impl keys nts data w m E) in R.
    injection R as <- <- <-. cbn [status res_status_json]. status_case.
Qed.

(** X9: the pre-hash of an update is converted to a string before it is
    hashed.  For a record created from a truthy pre-hash, an update for
    which [updateCheck] resolves to a row holding its stored hash passes
    the gate whenever its own [patientHash] converts to the same string:
    so an update without a [patientHash] passes for a record created from
    the pre-hash ["undefined"]. *)
Theorem update_pre_hash_coerced {W : Type} (impl : Impl W) (keys : Keys)
    (nts : spec_float -> jsstring) (data : object) (ip : value) (w : W)
    (resp : Response) (w1 : W) (trace : list Event)
    (e : Event) (d : object) (h : option jsstring) :
  truthy (get data "patientHash") = true ->
  handle impl (post_calculate keys nts data ip) w = (resp, w1, trace) ->
  e ∈ trace -> inserted e = Some (d, h) ->
  forall (upd : object) (w2 : W) (row : CheckRow),
    updateCheck impl (get upd "auditID") w2 = Ok (Some row) ->
    row_patientHash row = h ->
    ToString nts (get upd "patientHash") = ToString nts (get data "patientHash") ->
    handle impl (post_update keys nts upd) w2
    = (match fst (updateData impl upd w2) with
       | Ok _ => res_json (BJson (VString (lit "Audit data update complete")))
       | Throw m => res_status_json 500 (BJson m)
       end,
       snd (updateData impl upd w2),
       [event (UpdateCheck (get upd "auditID")); event (UpdateData upd)]).
Proof.
  intros T R He Hi upd w2 row E Er EU.
  destruct (post_calculate_inserted impl keys nts data ip w resp w1 trace e d h R He Hi)
    as (_ & -> & _).
  apply (post_update_match impl keys nts upd w2 row E).
  apply js_neq_false. rewrite Er. unfold stored_hash. rewrite T.
  rewrite !rehashPatientHash_eq. now rewrite EU.
Qed.

(** X12: an answer of [/update] is one of four: the 404 message and the
    401 message, which are made of the submitted audit ID alone, the
    confirmation, or 500 with the message of the error that [updateCheck]
    or [updateData] threw.  Neither the submitted pre-hash nor the stored
    hash is part of an answer of the handler's own. *)
Theorem update_answers {W : Type} (impl : Impl W) (keys : Keys)
    (nts : spec_float -> jsstring) (data : object) (w : W)
    (resp : Response) (w' : W) (trace : list Event) :
  handle impl (post_update keys nts data) w = (resp, w', trace) ->
  resp = res_status_json 404
           (BJson (VString (lit "Audit ID not found in database: "
                            ++ ToString nts (get data "auditID"))))
  \/ resp = res_status_json 401
              (BJson (VString
                 (lit "Patient NHS number or date of birth do not match for episode with audit ID: "
                  ++ ToString nts (get data "auditID"))))
  \/ resp = res_json (BJson (VString (lit "Audit data update complete")))
  \/ exists m,
       resp = res_status_json 500 (BJson m)
       /\ (updateCheck impl (get data "auditID") w = Throw m
           \/ fst (updateData impl data w) = Throw m).
Proof.
  intros R.
  destruct (updateCheck impl (get data "auditID") w) as [[row |] | m] eqn:E.
  - destruct (js_neq (row_patientHash row)
                (rehashPatientHash keys nts (get data "patientHash"))) eqn:N.
    + rewrite (post_update_mismatch impl keys nts data w row E N) in R.
      injection R as <- <- <-. right. left. reflexivity.
    + rewrite (post_update_match impl keys nts data w row E N) in R.
      injection R as <- <- <-.
      destruct (updateData impl data w) as [[u | m] w2]; cbn [fst].
      * right. right. left. reflexivity.
      * right. right. right. exists m. split; [reflexivity | right; reflexivity].
  - rewrite (post_update_absent impl keys nts data w E) in R.
    injection R as <- <- <-. left. reflexivity.
  - rewrite (post_update_throws impl keys nts data w m E) in R.
    injection R as <- <- <-.
    right. right. right. exists m. split; [reflexivity | left; reflexivity].
Qed.

(** ** The hasher on ASCII pre-hashes *)

(** X10: for ASCII pre-hashes, such as hexadecimal digests, the bytes that
    are hashed are the characters of the pre-hash followed by the bytes of
    the salt; two such pre-hashes have the same hash exactly when SHA-256
    gives these two messages the same digest, and the two messages are the
    same only when the pre-hashes are. *)
Theorem rehashPatientHash_ascii (keys : Keys) (nts : spec_float -> jsstring)
    (p1 p2 : jsstring) :
  ascii_string p1 -> ascii_string p2 ->
  (rehashPatientHash keys nts (VString p1) = rehashPatientHash keys nts (VString p2)
   <-> SHA256.hash (p1 ++ Utf8.encode (salt keys))
       = SHA256.hash (p2 ++ Utf8.encode (salt keys)))
  /\ (p1 ++ Utf8.encode (salt keys) = p2 ++ Utf8.encode (salt keys) <-> p1 = p2).
Proof.
  intros A1 A2. split.
  - rewrite !rehashPatientHash_eq. cbn [ToString].
    rewrite !encode_ascii_app by assumption. split.
    + apply hex_regs_inj; apply hash_range.
    + intros E. now rewrite E.
  - split; [apply app_inv_tail | now intros ->].
Qed.

(** ** The theorems at the fixtures *)

Lemma run_eta {A B C : Type} (x : A * B * C) : x = (fst (fst x), snd (fst x), snd x).
Proof. now destruct x as [[a b] c]. Qed.

(** C3 at the pre-hash ["abc123"] and the salt ["pepper"] of scenario A:
    the bytes hashed are those of ["abc123pepper"], and the hash is its
    SHA-256 digest in hexadecimal. *)
Lemma rehashPatientHash_is_hex_sha256_witness :
  Utf8.encode (lit "abc123" ++ salt Fixture.keys) = lit "abc123pepper"
  /\ rehashPatientHash Fixture.keys Fixture.number_toString (VString (lit "abc123"))
     = lit "1f28ccbfc0af11265f1d45ce55c7165147d568991d45eb0a59e897256651586e"
  /\ length (rehashPatientHash Fixture.keys Fixture.number_toString
               (VString (lit "abc123"))) = 64%nat.
Proof.
  destruct (rehashPatientHash_is_hex_sha256 Fixture.keys Fixture.number_toString
              (lit "abc123"))
    as (_ & L & _ & _ & A & _ & _ & _ & _ & D & _).
  split; [| split; [apply D; reflexivity | exact L]].
  apply A; unfold ascii_string; cbn; repeat (constructor; [lia |]); constructor.
Defined.

(** C5 at a request for an audit ID that no record has. *)
Lemma update_unknown_audit_id_witness :
  let data := Fixture.amendment_request (lit "unknown-id") (lit "abc123") in
  updateCheck Fixture.impl (get data "auditID") Fixture.created = Ok None
  /\ handle Fixture.impl (post_update Fixture.keys Fixture.number_toString data)
       Fixture.created
     = (res_status_json 404
          (BJson (VString (lit "Audit ID not found in database: "
                           ++ ToString Fixture.number_toString (get data "auditID")))),
        Fixture.created, [event (UpdateCheck (get data "auditID"))]).
Proof.
  cbv zeta. split; [vm_compute; reflexivity |].
  refine (proj1 (update_unknown_audit_id Fixture.impl Fixture.keys
                   Fixture.number_toString
                   (Fixture.amendment_request (lit "unknown-id") (lit "abc123"))
                   Fixture.created _)).
  vm_compute. reflexivity.
Defined.

(** C1 at an update of the created record that submits another pre-hash. *)
Lemma update_applied_iff_hash_matches_witness :
  let data := Fixture.amendment_request (lit "AUDIT-1") (lit "wrong") in
  let row :=
    {| row_patientHash :=
         Some (lit "1f28ccbfc0af11265f1d45ce55c7165147d568991d45eb0a59e897256651586e") |} in
  let r := handle Fixture.impl (post_update Fixture.keys Fixture.number_toString data)
             Fixture.created in
  updateCheck Fixture.impl (get data "auditID") Fixture.created = Ok (Some row)
  /\ (existsb is_update_data (snd r) = true
      <-> row_patientHash row
          = Some (rehashPatientHash Fixture.keys Fixture.number_toString
                    (get data "patientHash"))).
Proof.
  cbv zeta. split; [vm_compute; reflexivity |].
  refine (proj1 (update_applied_iff_hash_matches Fixture.impl Fixture.keys
                   Fixture.number_toString
                   (Fixture.amendment_request (lit "AUDIT-1") (lit "wrong"))
                   Fixture.created _ _ _ _ _ (run_eta _))).
  vm_compute. reflexivity.
Defined.

(** C4 at a submission without a weight, which the calculator rejects. *)
Lemma calculation_errors_gate_witness :
  let data : object := {[ "patientHash" := VString (lit "abc123") ]} in
  let r := handle Fixture.impl
             (post_calculate Fixture.keys Fixture.number_toString data VUndefined)
             Fixture.empty in
  let c := {| errors := [VString (lit "weight is required")]; variables := ∅ |} in
  calculateVariables Fixture.impl data = Ok c
  /\ errors c <> []
  /\ fst (fst r) = res_status_json 400 (BErrors (errors c))
  /\ snd (fst r) = Fixture.empty
  /\ snd r = [event (CalculateVariables data)]
  /\ (forall id, updateCheck Fixture.impl id (snd (fst r))
                 = updateCheck Fixture.impl id Fixture.empty).
Proof.
  cbv zeta. split; [vm_compute; reflexivity |]. split; [discriminate |].
  refine (proj1 (calculation_errors_gate Fixture.impl Fixture.keys
                   Fixture.number_toString {[ "patientHash" := VString (lit "abc123") ]}
                   VUndefined Fixture.empty _ _ _ (run_eta _)) _ _ _).
  - vm_compute. reflexivity.
  - discriminate.
Defined.

(** The call of [insertCalculateData] that a submission [data] accepted in
    [Fixture.empty] leads to, and the row found for the record it creates. *)
Lemma fixture_insert (data : object) (h : option jsstring) :
  data !! "weight" = Some (VNumber (S754_finite false 70 0)) ->
  get data "patientPostcode" = VString (lit "SW1A1AA") ->
  stored_hash Fixture.keys Fixture.number_toString data = h ->
  event (InsertCalculateData (normalised data) (VNumber (S754_finite false 5 0))
           (lit "AUDIT-1") h VUndefined {| errors := []; variables := ∅ |})
  ∈ snd (handle Fixture.impl
           (post_calculate Fixture.keys Fixture.number_toString data VUndefined)
           Fixture.empty).
Proof.
  intros Ew Ep Eh.
  rewrite (post_calculate_accepted Fixture.impl Fixture.keys Fixture.number_toString
             data VUndefined Fixture.empty {| errors := []; variables := ∅ |}).
  - unfold after_gate. rewrite Ep, Eh. cbn. repeat constructor.
  - cbn. unfold Fixture.calculator. now rewrite Ew.
  - reflexivity.
Qed.

(** C8 at the submission of the fixtures, which has no bicarbonate. *)
Lemma optional_numeric_fields_normalised_witness :
  let data := Fixture.submission in
  let r := handle Fixture.impl
             (post_calculate Fixture.keys Fixture.number_toString data VUndefined)
             Fixture.empty in
  let e := event (InsertCalculateData (normalised data)
                    (VNumber (S754_finite false 5 0)) (lit "AUDIT-1")
                    (stored_hash Fixture.keys Fixture.number_toString data) VUndefined
                    {| errors := []; variables := ∅ |}) in
  e ∈ snd r
  /\ inserted e = Some (normalised data, stored_hash Fixture.keys Fixture.number_toString data)
  /\ "bicarbonate" ∈ optional_numeric
  /\ data !! "bicarbonate" = None
  /\ normalised data !! "bicarbonate" = Some VNull.
Proof.
  cbv zeta.
  assert (event (InsertCalculateData (normalised Fixture.submission)
                   (VNumber (S754_finite false 5 0)) (lit "AUDIT-1")
                   (stored_hash Fixture.keys Fixture.number_toString Fixture.submission)
                   VUndefined {| errors := []; variables := ∅ |})
          ∈ snd (handle Fixture.impl
                   (post_calculate Fixture.keys Fixture.number_toString
                      Fixture.submission VUndefined) Fixture.empty)) as He.
  { apply fixture_insert; reflexivity. }
  assert ("bicarbonate" ∈ optional_numeric) as Hk by (apply list_elem_of_here).
  assert (Fixture.submission !! "bicarbonate" = None) as Hn by (vm_compute; reflexivity).
  split; [exact He |]. split; [reflexivity |]. split; [exact Hk |]. split; [exact Hn |].
  exact (proj1 (proj1 (proj2 (proj2
           (optional_numeric_fields_normalised Fixture.impl Fixture.keys
              Fixture.number_toString Fixture.submission VUndefined Fixture.empty
              _ _ _ _ _ _ (run_eta _) He eq_refl))) "bicarbonate" Hk Hn)).
Defined.

(** C7 at an update of the created record that submits its pre-hash. *)
Lemma update_rewrites_outcome_only_witness :
  let data := Fixture.amendment_request (lit "AUDIT-1") (lit "abc123") in
  let r := handle Fixture.impl (post_update Fixture.keys Fixture.number_toString data)
             Fixture.created in
  fst (fst r) = complete
  /\ existsb is_insert (snd r) = false
  /\ (forall id,
        Store.creation_fields <$> Store.records (snd (fst r)) !! id
        = Store.creation_fields <$> Store.records Fixture.created !! id).
Proof.
  cbv zeta. split; [vm_compute; reflexivity |].
  pose proof (update_rewrites_outcome_only Fixture.calculator Fixture.keys
                Fixture.number_toString
                (Fixture.amendment_request (lit "AUDIT-1") (lit "abc123"))
                Fixture.created _ _ _ (run_eta _)) as (Hi & Hf & _).
  split; [exact Hi | exact Hf].
Defined.

(** C2 at the submission of the fixtures without its pre-hash, and an
    update of the record it creates. *)
Lemma null_pre_hash_never_amended_witness :
  let data := delete "patientHash" Fixture.submission in
  let r := handle Fixture.impl
             (post_calculate Fixture.keys Fixture.number_toString data VUndefined)
             Fixture.empty in
  let upd := Fixture.amendment_request (lit "AUDIT-1") (lit "abc123") in
  (get data "patientHash" = VUndefined \/ get data "patientHash" = VNull)
  /\ updateCheck Fixture.impl (get upd "auditID") (snd (fst r))
     = Ok (Some {| row_patientHash := None |})
  /\ handle Fixture.impl (post_update Fixture.keys Fixture.number_toString upd)
       (snd (fst r))
     = (res_status_json 401
          (BJson (VString (mismatch_message Fixture.number_toString (get upd "auditID")))),
        snd (fst r), [event (UpdateCheck (get upd "auditID"))]).
Proof.
  cbv zeta.
  assert (get (delete "patientHash" Fixture.submission) "patientHash" = VUndefined
          \/ get (delete "patientHash" Fixture.submission) "patientHash" = VNull) as F
    by (left; vm_compute; reflexivity).
  split; [exact F |]. split; [vm_compute; reflexivity |].
  refine (proj2 (null_pre_hash_never_amended Fixture.impl Fixture.keys
                   Fixture.number_toString (delete "patientHash" Fixture.submission)
                   VUndefined Fixture.empty _ _ _ _ _ None F (run_eta _)
                   (fixture_insert _ None _ _ _) eq_refl)
            _ _ {| row_patientHash := None |} _ eq_refl);
    vm_compute; reflexivity.
Defined.

(** C10 at the submission of the fixtures with the empty string as its
    pre-hash, and an update of the record it creates. *)
Lemma empty_pre_hash_never_amended_witness :
  let data := <["patientHash" := VString []]> Fixture.submission in
  let r := handle Fixture.impl
             (post_calculate Fixture.keys Fixture.number_toString data VUndefined)
             Fixture.empty in
  let upd := Fixture.amendment_request (lit "AUDIT-1") [] in
  get data "patientHash" = VString []
  /\ updateCheck Fixture.impl (get upd "auditID") (snd (fst r))
     = Ok (Some {| row_patientHash := None |})
  /\ handle Fixture.impl (post_update Fixture.keys Fixture.number_toString upd)
       (snd (fst r))
     = (res_status_json 401
          (BJson (VString (mismatch_message Fixture.number_toString (get upd "auditID")))),
        snd (fst r), [event (UpdateCheck (get upd "auditID"))]).
Proof.
  cbv zeta.
  assert (get (<["patientHash" := VString []]> Fixture.submission) "patientHash"
          = VString []) as F by (vm_compute; reflexivity).
  split; [exact F |]. split; [vm_compute; reflexivity |].
  refine (proj2 (proj2 (empty_pre_hash_never_amended Fixture.impl Fixture.keys
                   Fixture.number_toString
                   (<["patientHash" := VString []]> Fixture.submission)
                   VUndefined Fixture.empty _ _ _ _ _ None F (run_eta _)
                   (fixture_insert _ None _ _ _) eq_refl))
            _ _ {| row_patientHash := None |} _ eq_refl);
    vm_compute; reflexivity.
Defined.

(** C6 at the submission of the fixtures and two updates of the record it
    creates: one with its pre-hash, one with another. *)
Lemma round_trip_witness :
  let h := rehashPatientHash Fixture.keys Fixture.number_toString (VString (lit "abc123")) in
  let right := Fixture.amendment_request (lit "AUDIT-1") (lit "abc123") in
  let wrong := Fixture.amendment_request (lit "AUDIT-1") (lit "wrong") in
  get Fixture.submission "patientHash" = VString (lit "abc123")
  /\ lit "abc123" <> []
  /\ updateCheck Fixture.impl (VString (lit "AUDIT-1")) Fixture.created
     = Ok (Some {| row_patientHash := Some h |})
  /\ handle Fixture.impl (post_update Fixture.keys Fixture.number_toString right)
       Fixture.created
     = (complete, snd (updateData Fixture.impl right Fixture.created),
        [event (UpdateCheck (VString (lit "AUDIT-1"))); event (UpdateData right)])
  /\ handle Fixture.impl (post_update Fixture.keys Fixture.number_toString wrong)
       Fixture.created
     = (unauthorized Fixture.number_toString (VString (lit "AUDIT-1")),
        Fixture.created, [event (UpdateCheck (VString (lit "AUDIT-1")))]).
Proof.
  cbv zeta.
  assert (get Fixture.submission "patientHash" = VString (lit "abc123")) as EH
    by (vm_compute; reflexivity).
  assert (lit "abc123" <> []) as NH by discriminate.
  assert (updateCheck Fixture.impl (VString (lit "AUDIT-1")) Fixture.created
          = Ok (Some {| row_patientHash :=
                          Some (rehashPatientHash Fixture.keys Fixture.number_toString
                                  (VString (lit "abc123"))) |})) as EL
    by (vm_compute; reflexivity).
  pose proof (round_trip Fixture.impl Fixture.keys Fixture.number_toString
                Fixture.submission VUndefined Fixture.empty _ _ _ _ _ _ (lit "abc123")
                EH NH (run_eta _)
                (fixture_insert Fixture.submission _ eq_refl eq_refl eq_refl) eq_refl)
    as [_ U].
  split; [exact EH |]. split; [exact NH |]. split; [exact EL |]. split.
  - refine (proj1 (U (Fixture.amendment_request (lit "AUDIT-1") (lit "abc123"))
                     Fixture.created _ EL _) _).
    + unfold stored_hash. rewrite EH. reflexivity.
    + reflexivity.
  - refine (proj2 (U (Fixture.amendment_request (lit "AUDIT-1") (lit "wrong"))
                     Fixture.created _ EL _) _).
    + unfold stored_hash. rewrite EH. reflexivity.
    + intros E. apply (f_equal (fun s => bool_decide (s = rehashPatientHash Fixture.keys
                                   Fixture.number_toString (VString (lit "abc123"))))) in E.
      vm_compute in E. discriminate E.
Defined.

(** ** The scenarios of the specification, at the fixtures *)

(** Scenario A: a valid submission is answered with an audit ID and the
    calculations, and the stored hash is [sha256("abc123" + "pepper")]. *)
Example scenario_A :
  fst (fst (handle Fixture.impl
              (post_calculate Fixture.keys Fixture.number_toString
                 Fixture.submission VUndefined) Fixture.empty))
  = res_json (BResult (lit "AUDIT-1") {| errors := []; variables := ∅ |})
  /\ Store.hash_of Fixture.created (lit "AUDIT-1")
     = Some (Some (lit "1f28ccbfc0af11265f1d45ce55c7165147d568991d45eb0a59e897256651586e")).
Proof. split; vm_compute; reflexivity. Qed.

(** Scenario B: an update for an unknown audit ID is answered with 404. *)
Example scenario_B :
  status (fst (fst (handle Fixture.impl
                      (post_update Fixture.keys Fixture.number_toString
                         (Fixture.amendment_request (lit "unknown-id") (lit "abc123")))
                      Fixture.created)))
  = 404.
Proof. vm_compute. reflexivity. Qed.

(** Scenario C: an update with the wrong pre-hash is answered with 401 and
    the store is unchanged. *)
Example scenario_C :
  fst (handle Fixture.impl
         (post_update Fixture.keys Fixture.number_toString
            (Fixture.amendment_request (lit "AUDIT-1") (lit "wrong")))
         Fixture.created)
  = (unauthorized Fixture.number_toString (VString (lit "AUDIT-1")), Fixture.created).
Proof. vm_compute. reflexivity. Qed.

(** Scenario D: a submission the calculator rejects is answered with 400,
    and no record is there afterwards. *)
Example scenario_D :
  let r := handle Fixture.impl
             (post_calculate Fixture.keys Fixture.number_toString
                {[ "patientHash" := VString (lit "abc123") ]} VUndefined)
             Fixture.empty in
  status (fst (fst r)) = 400
  /\ Store.records (snd (fst r)) = ∅.
Proof. split; vm_compute; reflexivity. Qed.

(** X1 at an update of the created record that submits its pre-hash. *)
Lemma update_calls_witness :
  let data := Fixture.amendment_request (lit "AUDIT-1") (lit "abc123") in
  let r := handle Fixture.impl (post_update Fixture.keys Fixture.number_toString data)
             Fixture.created in
  (snd r = [event (UpdateCheck (get data "auditID"))] /\ snd (fst r) = Fixture.created)
  \/ (snd r = [event (UpdateCheck (get data "auditID")); event (UpdateData data)]
      /\ snd (fst r) = snd (updateData Fixture.impl data Fixture.created)).
Proof.
  cbv zeta.
  exact (update_calls Fixture.impl Fixture.keys Fixture.number_toString
           (Fixture.amendment_request (lit "AUDIT-1") (lit "abc123"))
           Fixture.created _ _ _ (run_eta _)).
Defined.

(** X2 at the submission of the fixtures. *)
Lemma calculate_answer_means_inserted_witness :
  let data := Fixture.submission in
  let r := handle Fixture.impl
             (post_calculate Fixture.keys Fixture.number_toString data VUndefined)
             Fixture.empty in
  status (fst (fst r)) = 200
  /\ exists id c imd w1 w2,
      fst (fst r) = res_json (BResult id c)
      /\ calculateVariables Fixture.impl data = Ok c /\ errors c = []
      /\ (if truthy (get data "patientPostcode")
          then getImdDecile Fixture.impl (get data "patientPostcode") Fixture.empty
               = (Ok imd, w1)
          else imd = VNull /\ w1 = Fixture.empty)
      /\ generateAuditID Fixture.impl w1 = (Ok id, w2)
      /\ snd r
         = event (CalculateVariables data)
           :: (if truthy (get data "patientPostcode")
               then [event (GetImdDecile (get data "patientPostcode"))] else [])
           ++ [event GenerateAuditID;
               event (InsertCalculateData (normalised data) imd id
                        (stored_hash Fixture.keys Fixture.number_toString data)
                        VUndefined c)]
      /\ event (InsertCalculateData (normalised data) imd id
                  (stored_hash Fixture.keys Fixture.number_toString data)
                  VUndefined c) ∈ snd r
      /\ insertCalculateData Fixture.impl (normalised data) imd id
           (stored_hash Fixture.keys Fixture.number_toString data)
           VUndefined c w2 = (Ok tt, snd (fst r)).
Proof.
  cbv zeta.
  assert (status (fst (fst (handle Fixture.impl
                              (post_calculate Fixture.keys Fixture.number_toString
                                 Fixture.submission VUndefined) Fixture.empty))) = 200)
    as S by (vm_compute; reflexivity).
  split; [exact S |].
  exact (calculate_answer_means_inserted Fixture.impl Fixture.keys
           Fixture.number_toString Fixture.submission VUndefined Fixture.empty
           _ _ _ (run_eta _) S).
Defined.

(** ** The further properties at the fixtures *)

(** X3 at the submission of the fixtures. *)
Lemma calculate_calls_witness :
  let r := handle Fixture.impl
             (post_calculate Fixture.keys Fixture.number_toString
                Fixture.submission VUndefined) Fixture.empty in
  map call_name (snd r) `prefix_of` calculate_order Fixture.submission
  /\ snd r <> []
  /\ (status (fst (fst r)) = 200 ->
      map call_name (snd r) = calculate_order Fixture.submission).
Proof.
  cbv zeta.
  exact (calculate_calls Fixture.impl Fixture.keys Fixture.number_toString
           Fixture.submission VUndefined Fixture.empty _ _ _ (run_eta _)).
Defined.

(** X4 at the submission of the fixtures, which has a postcode. *)
Lemma calculate_decile_witness :
  let r := handle Fixture.impl
             (post_calculate Fixture.keys Fixture.number_toString
                Fixture.submission VUndefined) Fixture.empty in
  truthy (get Fixture.submission "patientPostcode") = true
  /\ forall e imd, e ∈ snd r -> inserted_decile e = Some imd ->
       fst (getImdDecile Fixture.impl (get Fixture.submission "patientPostcode")
              Fixture.empty) = Ok imd.
Proof.
  cbv zeta.
  assert (truthy (get Fixture.submission "patientPostcode") = true) as T
    by (vm_compute; reflexivity).
  split; [exact T |].
  exact (proj2 (calculate_decile Fixture.impl Fixture.keys Fixture.number_toString
                  Fixture.submission VUndefined Fixture.empty _ _ _ (run_eta _)) T).
Defined.

(** X5 at the submission of the fixtures, with a postcode lookup that
    throws. *)
Lemma postcode_failure_blocks_creation_witness :
  let c := {| errors := []; variables := ∅ |} in
  let m := VString (lit "postcode lookup failed") in
  calculateVariables Outage.geocoder Fixture.submission = Ok c
  /\ errors c = []
  /\ truthy (get Fixture.submission "patientPostcode") = true
  /\ getImdDecile Outage.geocoder (get Fixture.submission "patientPostcode")
       Fixture.empty = (Throw m, Fixture.empty)
  /\ handle Outage.geocoder
       (post_calculate Fixture.keys Fixture.number_toString
          Fixture.submission VUndefined) Fixture.empty
     = (res_status_json 500 (BJson m), Fixture.empty,
        [event (CalculateVariables Fixture.submission);
         event (GetImdDecile (get Fixture.submission "patientPostcode"))]).
Proof.
  cbv zeta.
  assert (calculateVariables Outage.geocoder Fixture.submission
          = Ok {| errors := []; variables := ∅ |}) as Ec by (vm_compute; reflexivity).
  assert (truthy (get Fixture.submission "patientPostcode") = true) as T
    by (vm_compute; reflexivity).
  split; [exact Ec |]. split; [reflexivity |]. split; [exact T |].
  split; [reflexivity |].
  exact (postcode_failure_blocks_creation Outage.geocoder Fixture.keys
           Fixture.number_toString Fixture.submission VUndefined Fixture.empty
           _ _ _ Ec eq_refl T eq_refl).
Defined.

(** X6 at the submission of the fixtures, with an insertion that throws. *)
Lemma calculate_failure_inserts_nothing_witness :
  let r := handle Outage.database
             (post_calculate Fixture.keys Fixture.number_toString
                Fixture.submission VUndefined) Fixture.empty in
  status (fst (fst r)) = 500
  /\ (forall id c, body (fst (fst r)) <> BResult id c)
  /\ (existsb is_insert (snd r) = false
      \/ exists id c imd w2 m,
           last (snd r)
           = Some (event (InsertCalculateData (normalised Fixture.submission) imd id
                            (stored_hash Fixture.keys Fixture.number_toString
                               Fixture.submission) VUndefined c))
           /\ insertCalculateData Outage.database (normalised Fixture.submission) imd id
                (stored_hash Fixture.keys Fixture.number_toString Fixture.submission)
                VUndefined c w2 = (Throw m, snd (fst r))
           /\ fst (fst r) = res_status_json 500 (BJson m)).
Proof.
  cbv zeta.
  assert (status (fst (fst (handle Outage.database
                              (post_calculate Fixture.keys Fixture.number_toString
                                 Fixture.submission VUndefined) Fixture.empty))) = 500)
    as S by (vm_compute; reflexivity).
  split; [exact S |].
  apply (calculate_failure_inserts_nothing Outage.database Fixture.keys
           Fixture.number_toString Fixture.submission VUndefined Fixture.empty
           _ _ _ (run_eta _)).
  rewrite S. discriminate.
Defined.

(** X7 at a submission without a weight, which the calculator rejects. *)
Lemma calculate_status_witness :
  let data : object := {[ "patientHash" := VString (lit "abc123") ]} in
  let r := handle Fixture.impl
             (post_calculate Fixture.keys Fixture.number_toString data VUndefined)
             Fixture.empty in
  status (fst (fst r)) = 400
  /\ exists c, calculateVariables Fixture.impl data = Ok c /\ errors c <> [].
Proof.
  cbv zeta.
  assert (status (fst (fst (handle Fixture.impl
                              (post_calculate Fixture.keys Fixture.number_toString
                                 {[ "patientHash" := VString (lit "abc123") ]} VUndefined)
                              Fixture.empty))) = 400)
    as S by (vm_compute; reflexivity).
  split; [exact S |].
  exact (proj1 (proj1 (proj2 (calculate_status Fixture.impl Fixture.keys
                                Fixture.number_toString
                                {[ "patientHash" := VString (lit "abc123") ]}
                                VUndefined Fixture.empty _ _ _ (run_eta _)))) S).
Defined.

(** X8 at an update of the created record that submits another pre-hash. *)
Lemma update_status_table_witness :
  let data := Fixture.amendment_request (lit "AUDIT-1") (lit "wrong") in
  let r := handle Fixture.impl (post_update Fixture.keys Fixture.number_toString data)
             Fixture.created in
  status (fst (fst r)) = 401
  /\ exists row,
       updateCheck Fixture.impl (get data "auditID") Fixture.created = Ok (Some row)
       /\ row_patientHash row
          <> Some (rehashPatientHash Fixture.keys Fixture.number_toString
                     (get data "patientHash")).
Proof.
  cbv zeta.
  assert (status (fst (fst (handle Fixture.impl
                              (post_update Fixture.keys Fixture.number_toString
                                 (Fixture.amendment_request (lit "AUDIT-1") (lit "wrong")))
                              Fixture.created))) = 401)
    as S by (vm_compute; reflexivity).
  split; [exact S |].
  exact (proj1 (proj1 (proj2 (update_status_table Fixture.impl Fixture.keys
                                Fixture.number_toString
                                (Fixture.amendment_request (lit "AUDIT-1") (lit "wrong"))
                                Fixture.created _ _ _ (run_eta _)))) S).
Defined.

(** X12 at the same update. *)
Lemma update_answers_witness :
  let data := Fixture.amendment_request (lit "AUDIT-1") (lit "wrong") in
  let r := handle Fixture.impl (post_update Fixture.keys Fixture.number_toString data)
             Fixture.created in
  fst (fst r)
  = res_status_json 404
      (BJson (VString (lit "Audit ID not found in database: "
                       ++ ToString Fixture.number_toString (get data "auditID"))))
  \/ fst (fst r)
     = res_status_json 401
         (BJson (VString
            (lit "Patient NHS number or date of birth do not match for episode with audit ID: "
             ++ ToString Fixture.number_toString (get data "auditID"))))
  \/ fst (fst r) = res_json (BJson (VString (lit "Audit data update complete")))
  \/ exists m,
       fst (fst r) = res_status_json 500 (BJson m)
       /\ (updateCheck Fixture.impl (get data "auditID") Fixture.created = Throw m
           \/ fst (updateData Fixture.impl data Fixture.created) = Throw m).
Proof.
  cbv zeta.
  exact (update_answers Fixture.impl Fixture.keys Fixture.number_toString
           (Fixture.amendment_request (lit "AUDIT-1") (lit "wrong"))
           Fixture.created _ _ _ (run_eta _)).
Defined.

(** X9 at a record created from the pre-hash ["undefined"] and an update
    without a [patientHash]. *)
Lemma update_pre_hash_coerced_witness :
  let data := <["patientHash" := VString (lit "undefined")]> Fixture.submission in
  let r := handle Fixture.impl
             (post_calculate Fixture.keys Fixture.number_toString data VUndefined)
             Fixture.empty in
  let upd := delete "patientHash" (Fixture.amendment_request (lit "AUDIT-1") []) in
  truthy (get data "patientHash") = true
  /\ upd !! "patientHash" = None
  /\ updateCheck Fixture.impl (get upd "auditID") (snd (fst r))
     = Ok (Some {| row_patientHash :=
                     stored_hash Fixture.keys Fixture.number_toString data |})
  /\ handle Fixture.impl (post_update Fixture.keys Fixture.number_toString upd)
       (snd (fst r))
     = (match fst (updateData Fixture.impl upd (snd (fst r))) with
        | Ok _ => res_json (BJson (VString (lit "Audit data update complete")))
        | Throw m => res_status_json 500 (BJson m)
        end,
        snd (updateData Fixture.impl upd (snd (fst r))),
        [event (UpdateCheck (get upd "auditID")); event (UpdateData upd)]).
Proof.
  cbv zeta.
  assert (truthy (get (<["patientHash" := VString (lit "undefined")]> Fixture.submission)
                    "patientHash") = true) as T by (vm_compute; reflexivity).
  split; [exact T |]. split; [vm_compute; reflexivity |].
  assert (updateCheck Fixture.impl
            (get (delete "patientHash" (Fixture.amendment_request (lit "AUDIT-1") []))
               "auditID")
            (snd (fst (handle Fixture.impl
                         (post_calculate Fixture.keys Fixture.number_toString
                            (<["patientHash" := VString (lit "undefined")]>
                               Fixture.submission) VUndefined) Fixture.empty)))
          = Ok (Some {| row_patientHash :=
                          stored_hash Fixture.keys Fixture.number_toString
                            (<["patientHash" := VString (lit "undefined")]>
                               Fixture.submission) |})) as EL
    by (vm_compute; reflexivity).
  split; [exact EL |].
  refine (update_pre_hash_coerced Fixture.impl Fixture.keys Fixture.number_toString
            (<["patientHash" := VString (lit "undefined")]> Fixture.submission)
            VUndefined Fixture.empty _ _ _ _ _ _ T (run_eta _)
            (fixture_insert _ _ _ _ eq_refl) eq_refl _ _ _ EL eq_refl _);
    vm_compute; reflexivity.
Defined.

(** X10 at the pre-hashes ["abc123"] and ["wrong"]. *)
Lemma rehashPatientHash_ascii_witness :
  ascii_string (lit "abc123") /\ ascii_string (lit "wrong")
  /\ (lit "abc123" ++ Utf8.encode (salt Fixture.keys)
      = lit "wrong" ++ Utf8.encode (salt Fixture.keys)
      <-> lit "abc123" = lit "wrong").
Proof.
  assert (ascii_string (lit "abc123")) as A1
    by (unfold ascii_string; cbn; repeat (constructor; [lia |]); constructor).
  assert (ascii_string (lit "wrong")) as A2
    by (unfold ascii_string; cbn; repeat (constructor; [lia |]); constructor).
  split; [exact A1 |]. split; [exact A2 |].
  exact (proj2 (rehashPatientHash_ascii Fixture.keys Fixture.number_toString
                  (lit "abc123") (lit "wrong") A1 A2)).
Defined.
